(** * mosdns-cn: startup of the split-horizon dispatcher ([main.go])

    A shallow embedding of [main.go]: the option structure [Opts], the
    command line as go-flags reads it, [splitArgs], the two batch loaders
    and [run], which builds the one [cnHandler] and hands it to the UDP and
    the TCP server.

    The packages [main.go] imports (net/url, go-flags, zap, and the mosdns
    packages upstream, domain, netlist, msg_matcher, mem_cache and server)
    are collaborators: the class [External] lists the operations [run]
    calls on them.  The process state [run] works on (the heap objects
    reached through pointers, the logger, the spawned servers) is a record
    [World], threaded through a small state monad whose outcomes are "still
    running", "exited" and "panicked". *)

From Stdlib Require Import ZArith Lia Bool Ascii.
From stdpp Require Import base option list strings gmap sorting.

Local Open Scope Z_scope.

(** ** Go primitives *)

(** [int64]: two's complement on 64 bits.  [wrap64 z] is the value an
    [int64] operation leaves when its mathematical result is [z]. *)
Definition int64_min : Z := - 2 ^ 63.
Definition int64_max : Z := 2 ^ 63 - 1.
Definition wrap64 (z : Z) : Z := (z + 2 ^ 63) mod 2 ^ 64 - 2 ^ 63.

(** [int]: 64 bits on the 64-bit targets (amd64, arm64); the 32-bit
    range is contained in it. *)
Definition is_int (z : Z) : bool := (int64_min <=? z) && (z <=? int64_max).

(** [a / b] on integers truncates toward zero. *)
Definition int_div (a b : Z) : Z := Z.quot a b.

(** [time.Duration] is an [int64] count of nanoseconds. *)
Definition Duration := Z.
Definition Nanosecond : Duration := 1.
Definition Microsecond : Duration := 1000 * Nanosecond.
Definition Millisecond : Duration := 1000 * Microsecond.
Definition Second : Duration := 1000 * Millisecond.
Definition Minute : Duration := 60 * Second.
Definition Duration_mul (a b : Duration) : Duration := wrap64 (a * b).

(** [strings.HasPrefix] and [strings.Contains] on byte strings. *)
Fixpoint HasPrefix (s p : string) : bool :=
  match p, s with
  | EmptyString, _ => true
  | String _ _, EmptyString => false
  | String b p', String a s' => if Ascii.eqb a b then HasPrefix s' p' else false
  end.

Fixpoint Contains (s substr : string) : bool :=
  HasPrefix s substr ||
  match s with
  | EmptyString => false
  | String _ s' => Contains s' substr
  end.

(** ** Errors and log lines *)

(** A Go [error]: a message, possibly wrapping another error the way
    [fmt.Errorf] does with [%w]. *)
Inductive error : Type :=
| errorString (msg : string)
| wrapError (format : string) (inner : error).

(** An argument of a printf-style log call. *)
Inductive Arg : Type :=
| AInt (n : Z)
| AStr (s : string)
| AErr (e : error).

Record LogLine : Type := mkLogLine { format : string; args : list Arg }.

Inductive Level : Type := DebugLevel | InfoLevel.

(** ** net/url *)

Module url.

(** The fields of [url.URL] ([User] flattened to its string form). *)
Record URL : Type := mkURL {
  Scheme : string;
  Opaque : string;
  User : string;
  Host : string;
  Path : string;
  ForceQuery : bool;
  RawQuery : string;
  Fragment : string
}.

(** [u.RawQuery = q]. *)
Definition set_RawQuery (u : URL) (q : string) : URL :=
  {| Scheme := Scheme u; Opaque := Opaque u; User := User u;
     Host := Host u; Path := Path u; ForceQuery := ForceQuery u;
     RawQuery := q; Fragment := Fragment u |}.

(** [url.Values] is [map[string][]string]. *)
Definition Values : Type := gmap string (list string).

(** [v.Get(key)]: the first value under [key], or the empty string. *)
Definition Get (v : Values) (key : string) : string :=
  match v !! key with
  | Some (x :: _) => x
  | _ => ""
  end.

End url.

(** A pointer is an index into the heap of the process state. *)
Abbreviation ptr := nat (only parsing).

(** ** The collaborators of [main.go] *)

(** The operations, over the three types the packages keep to
    themselves: [upstream.FastUpstream], [domain.MixMatcher] and
    [netlist.List]. *)
Class External (FastUpstream MixMatcher NetList : Type) : Type := {
  (** net/url: [url.Parse], [ParseQuery] (errors dropped, as [URL.Query]
      does) and [URL.String]. *)
  url_Parse : string -> error + url.URL;
  url_ParseQuery : string -> url.Values;
  url_String : url.URL -> string;
  (** upstream: [NewFastUpstream(addr, WithSocks5(s), WithDialAddr(n))]. *)
  NewFastUpstream : string -> string -> string -> error + FastUpstream;
  (** domain: a mix matcher over a simple domain matcher, its loader and
      its length. *)
  NewMixMatcher : MixMatcher;
  domain_LoadFromFile : MixMatcher -> string -> error + MixMatcher;
  MixMatcher_Len : MixMatcher -> Z;
  (** netlist: the list, its loader, [Sort] and [Len]. *)
  netlist_NewList : NetList;
  netlist_LoadFromFile : NetList -> string -> error + NetList;
  netlist_Sort : NetList -> NetList;
  netlist_Len : NetList -> Z
}.

Section Startup.

Context {FastUpstream MixMatcher NetList : Type}.
Context `{Ext : External FastUpstream MixMatcher NetList}.

(** [u.Query()]. *)
Definition url_Query (u : url.URL) : url.Values :=
  url_ParseQuery (url.RawQuery u).

(** ** [splitArgs] *)

Definition splitArgs (s : string) : error + (string * string * string) :=
  let s := if negb (Contains s "://") then "udp://" +:+ s else s in
  match url_Parse s with
  | inl err => inl (wrapError "invalid upstream address, %w" err)
  | inr u =>
      let v := url_Query u in
      let socks5 := url.Get v "socks5" in
      let netAddr := url.Get v "netaddr" in
      let u := url.set_RawQuery u "" in
      let addr := url_String u in
      inr (addr, socks5, netAddr)
  end.

(** ** The objects [run] builds *)


(** [mem_cache.NewMemCache(shardNum, maxSizePerShard, cleanerInterval)]:
    the cache object, as far as its constructor arguments fix it. *)
Record MemCache : Type := NewMemCache {
  shardNum : Z;
  maxSizePerShard : Z;
  cleanerInterval : Duration
}.

(** Modelled from the spec: [wrapFU] is declared in the package's handler
    file, which is not part of [main.go].  Spec 3, Upstream Handle: an
    endpoint with a trust flag, immutable after construction. *)
Record upstreamWrapper : Type := wrapFU {
  wrapped : FastUpstream;
  trusted : bool
}.

(** [msg_matcher.NewQNameMatcher(mixMatcher)] keeps the pointer it is
    given. *)
Record QNameMatcher : Type := NewQNameMatcher { qname_domain : ptr }.

(** The matcher [msg_matcher.NewAAAAAIPMatcher(nl)] returns: the pointer
    it is given, and (to have on record what it was handed) the list as
    the constructor found it. *)
Record AAAAAIPMatcher : Type := mkAAAAAIPMatcher {
  ip_list : ptr;
  ip_list_given : NetList
}.

(** Modelled from the spec: the declaration of [cnHandler] is in the
    package's handler file, which is not part of [main.go].  The fields are
    the ones [run] assigns, named as [run] names them (spec 6,
    configuration surface consumed at construction time); a nil pointer or
    interface is [None]. *)
Record cnHandler : Type := mkHandler {
  cache : option MemCache;
  localUpstream : list upstreamWrapper;
  remoteUpstream : list upstreamWrapper;
  localDomain : option QNameMatcher;
  remoteDomain : option QNameMatcher;
  localIP : option AAAAAIPMatcher;
  localLatency : Duration
}.

(** [new(cnHandler)]: every field at its zero value. *)
Definition zero_cnHandler : cnHandler :=
  mkHandler None [] [] None None None 0.

Definition set_cache (v : option MemCache) (c : cnHandler) : cnHandler :=
  mkHandler v (localUpstream c) (remoteUpstream c) (localDomain c)
    (remoteDomain c) (localIP c) (localLatency c).
Definition set_localUpstream (v : list upstreamWrapper) (c : cnHandler) : cnHandler :=
  mkHandler (cache c) v (remoteUpstream c) (localDomain c)
    (remoteDomain c) (localIP c) (localLatency c).
Definition set_remoteUpstream (v : list upstreamWrapper) (c : cnHandler) : cnHandler :=
  mkHandler (cache c) (localUpstream c) v (localDomain c)
    (remoteDomain c) (localIP c) (localLatency c).
Definition set_localDomain (v : option QNameMatcher) (c : cnHandler) : cnHandler :=
  mkHandler (cache c) (localUpstream c) (remoteUpstream c) v
    (remoteDomain c) (localIP c) (localLatency c).
Definition set_remoteDomain (v : option QNameMatcher) (c : cnHandler) : cnHandler :=
  mkHandler (cache c) (localUpstream c) (remoteUpstream c) (localDomain c)
    v (localIP c) (localLatency c).
Definition set_localIP (v : option AAAAAIPMatcher) (c : cnHandler) : cnHandler :=
  mkHandler (cache c) (localUpstream c) (remoteUpstream c) (localDomain c)
    (remoteDomain c) v (localLatency c).
Definition set_localLatency (v : Duration) (c : cnHandler) : cnHandler :=
  mkHandler (cache c) (localUpstream c) (remoteUpstream c) (localDomain c)
    (remoteDomain c) (localIP c) v.

(** [server.NewServer(network, addr, server.WithHandler(h))]. *)
Record Server : Type := NewServer {
  network : string;
  address : string;
  srv_handler : ptr
}.

(** ** The process state *)

(** What a pointer of [run] can point to. *)
Inductive Object : Type :=
| ObjHandler (c : cnHandler)
| ObjMixMatcher (m : MixMatcher)
| ObjNetList (l : NetList).

(** The logger's level and the lines it has written, the heap (a pointer
    is an index into it), and the servers whose [Start] runs in a
    goroutine. *)
Record World : Type := mkWorld {
  level : Level;
  logged : list LogLine;
  heap : list Object;
  serving : list Server
}.

(** The same state with another heap. *)
Definition with_heap (w : World) (hp : list Object) : World :=
  mkWorld (level w) (logged w) hp (serving w).

(** The state when the process starts. *)
Definition init_world : World := mkWorld InfoLevel [] [] [].

(** [Running a w]: the code went on with result [a] in state [w].
    [Exited code line]: [os.Exit(code)], after the fatal log line [line]
    when it came from [Fatalf].  [Panicked]: a run-time panic. *)
Inductive Outcome (A : Type) : Type :=
| Running (a : A) (w : World)
| Exited (code : Z) (line : option LogLine)
| Panicked.
#[global] Arguments Running {A} a w.
#[global] Arguments Exited {A} code line.
#[global] Arguments Panicked {A}.

Definition M (A : Type) : Type := World -> Outcome A.

Definition ret {A} (a : A) : M A := fun w => Running a w.

Definition bind {A B} (m : M A) (k : A -> M B) : M B :=
  fun w =>
    match m w with
    | Running a w' => k a w'
    | Exited code line => Exited code line
    | Panicked => Panicked
    end.

Notation "x <- m ;; k" := (bind m (fun x => k))
  (at level 100, m at next level, right associativity).
Notation "m ;;; k" := (bind m (fun _ => k))
  (at level 100, right associativity).

(** [mlog.Level().SetLevel(l)]. *)
Definition SetLevel (l : Level) : M unit :=
  fun w => Running tt (mkWorld l (logged w) (heap w) (serving w)).

(** [mlog.S().Infof(format, args...)]. *)
Definition Infof (fmt : string) (a : list Arg) : M unit :=
  fun w =>
    Running tt (mkWorld (level w) (logged w ++ [mkLogLine fmt a]) (heap w) (serving w)).

(** [mlog.S().Fatalf(format, args...)]: writes the line, then
    [os.Exit(1)]. *)
Definition Fatalf {A} (fmt : string) (a : list Arg) : M A :=
  fun _ => Exited 1 (Some (mkLogLine fmt a)).

(** Allocation of a fresh object; the result is the pointer to it. *)
Definition alloc (o : Object) : M ptr :=
  fun w =>
    Running (length (heap w)) (with_heap w (heap w ++ [o])).

(** Reads and writes through a pointer; a pointer to nothing, or to an
    object of another type, panics. *)
Definition get_handler (p : ptr) : M cnHandler :=
  fun w => match heap w !! p with
           | Some (ObjHandler c) => Running c w
           | _ => Panicked
           end.

Definition get_matcher (p : ptr) : M MixMatcher :=
  fun w => match heap w !! p with
           | Some (ObjMixMatcher m) => Running m w
           | _ => Panicked
           end.

Definition get_netlist (p : ptr) : M NetList :=
  fun w => match heap w !! p with
           | Some (ObjNetList l) => Running l w
           | _ => Panicked
           end.

Definition put (p : ptr) (o : Object) : M unit :=
  fun w => match heap w !! p with
           | Some _ => Running tt (with_heap w (<[p := o]> (heap w)))
           | None => Panicked
           end.

(** [msg_matcher.NewAAAAAIPMatcher(nl)]. *)
Definition NewAAAAAIPMatcher (nl : ptr) : M AAAAAIPMatcher :=
  l <- get_netlist nl ;; ret (mkAAAAAIPMatcher nl l).

(** [h.field = v], written [assign h (set_field v)]. *)
Definition assign (h : ptr) (f : cnHandler -> cnHandler) : M unit :=
  c <- get_handler h ;; put h (ObjHandler (f c)).

(** [go func() { err := srv.Start(); ... }()]: the server is serving from
    now on.  A listener that fails later ends the process from its own
    goroutine; that is not part of this state. *)
Definition go_Start (srv : Server) : M unit :=
  fun w => Running tt (mkWorld (level w) (logged w) (heap w) (serving w ++ [srv])).

(** [for i, x := range l { body }], with [i] counting from [i0]. *)
Fixpoint forRange {A} (body : nat -> A -> M unit) (i0 : nat) (l : list A) : M unit :=
  match l with
  | [] => ret tt
  | x :: l' => body i0 x ;;; forRange body (S i0) l'
  end.

(** ** The batch loaders *)

(** [batchLoadDomainFile(m, files)]: the files in order, into the matcher
    [m] points to; the first error is returned and ends the loop. *)
Fixpoint batchLoadDomainFile (m : ptr) (files : list string) : M (option error) :=
  match files with
  | [] => ret None
  | f :: files' =>
      mm <- get_matcher m ;;
      match domain_LoadFromFile mm f with
      | inl err => ret (Some err)
      | inr mm' => put m (ObjMixMatcher mm') ;;; batchLoadDomainFile m files'
      end
  end.

(** [batchLoadIPFile(l, files)]. *)
Fixpoint batchLoadIPFile (l : ptr) (files : list string) : M (option error) :=
  match files with
  | [] => ret None
  | f :: files' =>
      nl <- get_netlist l ;;
      match netlist_LoadFromFile nl f with
      | inl err => ret (Some err)
      | inr nl' => put l (ObjNetList nl') ;;; batchLoadIPFile l files'
      end
  end.

(** ** [Opts] and [run] *)

Record Options : Type := mkOptions {
  ServerAddr : string;
  CacheSize : Z;
  LocalUpstream : list string;
  LocalIP : list string;
  LocalDomain : list string;
  LocalLatency : Z;
  RemoteUpstream : list string;
  RemoteDomain : list string;
  Debug : bool
}.

(** The body of the loop over [Opts.LocalUpstream] or
    [Opts.RemoteUpstream]: [which] is the word in the two fatal messages,
    [field] and [set_field] the handler's list the handle is appended
    to. *)
Definition upstream_body (h : ptr) (which : string)
    (field : cnHandler -> list upstreamWrapper)
    (set_field : list upstreamWrapper -> cnHandler -> cnHandler)
    (i : nat) (s : string) : M unit :=
  match splitArgs s with
  | inl err =>
      Fatalf ("Failed to parse " +:+ which +:+ " upstream #%d: %v")
        [AInt (Z.of_nat i); AErr err]
  | inr (addr, socks5, netAddr) =>
      match NewFastUpstream addr socks5 netAddr with
      | inl err =>
          Fatalf ("Failed to load " +:+ which +:+ " upstream #%d: %v")
            [AInt (Z.of_nat i); AErr err]
      | inr fu =>
          let trusted := false in
          let trusted := if Nat.eqb i 0 then true else trusted in
          c <- get_handler h ;;
          put h (ObjHandler (set_field (field c ++ [wrapFU fu trusted]) c))
      end
  end.

(** The block under [if len(Opts.LocalDomain) > 0] or
    [if len(Opts.RemoteDomain) > 0]. *)
Definition domain_block (h : ptr) (Which which : string) (files : list string)
    (set_field : option QNameMatcher -> cnHandler -> cnHandler) : M unit :=
  if (0 <? length files)%nat then
    mixMatcher <- alloc (ObjMixMatcher NewMixMatcher) ;;
    err <- batchLoadDomainFile mixMatcher files ;;
    match err with
    | Some err => Fatalf ("Failed to load " +:+ which +:+ " domain: %v") [AErr err]
    | None =>
        mm <- get_matcher mixMatcher ;;
        Infof (Which +:+ " domain matcher loaded, length: %d")
          [AInt (MixMatcher_Len mm)] ;;;
        assign h (set_field (Some (NewQNameMatcher mixMatcher)))
    end
  else ret tt.

(** [run], up to the final [select {}], where it blocks for good:
    [Running tt w] is the state it blocks in. *)
Definition run (Opts : Options) : M unit :=
  (if Debug Opts then SetLevel DebugLevel else SetLevel InfoLevel) ;;;
  h <- alloc (ObjHandler zero_cnHandler) ;;
  (if 8 <? CacheSize Opts then
     assign h (set_cache
       (Some (NewMemCache 8 (int_div (CacheSize Opts) 8) Minute)))
   else ret tt) ;;;
  forRange (upstream_body h "local" localUpstream set_localUpstream)
    0 (LocalUpstream Opts) ;;;
  forRange (upstream_body h "remote" remoteUpstream set_remoteUpstream)
    0 (RemoteUpstream Opts) ;;;
  domain_block h "Local" "local" (LocalDomain Opts) set_localDomain ;;;
  domain_block h "Remote" "remote" (RemoteDomain Opts) set_remoteDomain ;;;
  nl <- alloc (ObjNetList netlist_NewList) ;;
  err <- batchLoadIPFile nl (LocalIP Opts) ;;
  match err with
  | Some err => Fatalf "Failed to load local ip: %v" [AErr err]
  | None =>
      l <- get_netlist nl ;;
      put nl (ObjNetList (netlist_Sort l)) ;;;
      l <- get_netlist nl ;;
      Infof "Local IP matcher loaded, length: %d" [AInt (netlist_Len l)] ;;;
      m <- NewAAAAAIPMatcher nl ;;
      assign h (set_localIP (Some m)) ;;;
      assign h (set_localLatency
        (Duration_mul Millisecond (wrap64 (LocalLatency Opts)))) ;;;
      let udpServer := NewServer "udp" (ServerAddr Opts) h in
      let tcpServer := NewServer "tcp" (ServerAddr Opts) h in
      go_Start udpServer ;;;
      go_Start tcpServer ;;;
      ret tt
  end.

(** ** Views of the configuration *)

(** The value a batch loader leaves in the object it loads into, as a
    function of the value it started from: the files in order, up to the
    first error. *)
Fixpoint load_all {T : Type} (load : T -> string -> error + T)
    (t : T) (files : list string) : error + T :=
  match files with
  | [] => inr t
  | f :: files' =>
      match load t f with
      | inl err => inl err
      | inr t' => load_all load t' files'
      end
  end.

(** An upstream entry [run] cannot turn into an upstream: [splitArgs]
    rejects the address, or [NewFastUpstream] rejects what [splitArgs]
    made of it. *)
Definition upstream_entry_fails (s : string) : Prop :=
  match splitArgs s with
  | inl _ => True
  | inr (addr, socks5, netAddr) =>
      match NewFastUpstream addr socks5 netAddr with
      | inl _ => True
      | inr _ => False
      end
  end.

(** The handle [u] is what the loop makes of the entry [s] at index [i]:
    the upstream built from the three parts of [s], and the trust flag
    the loop computes for that index. *)
Definition built (i : nat) (s : string) (u : upstreamWrapper) : Prop :=
  trusted u = (if Nat.eqb i 0 then true else false) /\
  exists addr socks5 netAddr,
    splitArgs s = inr (addr, socks5, netAddr) /\
    NewFastUpstream addr socks5 netAddr = inr (wrapped u).

(** A source file its loader rejects, whatever was loaded before it. *)
Definition file_fails {T : Type} (load : T -> string -> error + T)
    (f : string) : Prop :=
  forall t, exists err, load t f = inl err.

(** A configuration error: a bad entry in either upstream list, or a
    file in the domain lists or in the address list that does not load. *)
Definition config_error (Opts : Options) : Prop :=
  (exists s, s ∈ LocalUpstream Opts ++ RemoteUpstream Opts /\ upstream_entry_fails s) \/
  (exists f, f ∈ LocalDomain Opts ++ RemoteDomain Opts /\ file_fails domain_LoadFromFile f) \/
  (exists f, f ∈ LocalIP Opts /\ file_fails netlist_LoadFromFile f).

(** The handler the servers of a state answer with: the object the first
    of them was built with. *)
Definition handler_of (w : World) : option cnHandler :=
  match serving w with
  | [] => None
  | srv :: _ =>
      match heap w !! srv_handler srv with
      | Some (ObjHandler c) => Some c
      | _ => None
      end
  end.

(** The handler [run] has built when it gets as far as the servers. *)
Definition final_handler (Opts : Options) (lus rus : list upstreamWrapper)
    (nl : ptr) (l : NetList) : cnHandler :=
  mkHandler
    (if 8 <? CacheSize Opts
     then Some (NewMemCache 8 (int_div (CacheSize Opts) 8) Minute) else None)
    lus rus
    (if (0 <? length (LocalDomain Opts))%nat
     then Some (NewQNameMatcher 1) else None)
    (if (0 <? length (RemoteDomain Opts))%nat
     then Some (NewQNameMatcher
                  (if (0 <? length (LocalDomain Opts))%nat then 2 else 1)%nat)
     else None)
    (Some (mkAAAAAIPMatcher nl l))
    (Duration_mul Millisecond (wrap64 (LocalLatency Opts))).

(** The matchers [run] has left on the heap. *)
Definition final_matchers (Opts : Options) (lm rm : MixMatcher) : list Object :=
  (if (0 <? length (LocalDomain Opts))%nat then [ObjMixMatcher lm] else []) ++
  (if (0 <? length (RemoteDomain Opts))%nat then [ObjMixMatcher rm] else []).

(** ** The command line *)

(** One option occurrence on the command line, after go-flags has split
    the arguments and converted the value to the field's type: the long
    (or short) name and the value. *)
Inductive Flag : Type :=
| flag_server (v : string)
| flag_cache (v : Z)
| flag_local_upstream (v : string)
| flag_local_ip (v : string)
| flag_local_domain (v : string)
| flag_local_latency (v : Z)
| flag_remote_upstream (v : string)
| flag_remote_domain (v : string)
| flag_debug.

Inductive OptName : Type :=
| opt_server | opt_cache | opt_local_upstream | opt_local_ip
| opt_local_domain | opt_local_latency | opt_remote_upstream
| opt_remote_domain | opt_debug.

Definition OptName_eqb (a b : OptName) : bool :=
  match a, b with
  | opt_server, opt_server | opt_cache, opt_cache
  | opt_local_upstream, opt_local_upstream | opt_local_ip, opt_local_ip
  | opt_local_domain, opt_local_domain
  | opt_local_latency, opt_local_latency
  | opt_remote_upstream, opt_remote_upstream
  | opt_remote_domain, opt_remote_domain | opt_debug, opt_debug => true
  | _, _ => false
  end.

Definition flag_name (f : Flag) : OptName :=
  match f with
  | flag_server _ => opt_server
  | flag_cache _ => opt_cache
  | flag_local_upstream _ => opt_local_upstream
  | flag_local_ip _ => opt_local_ip
  | flag_local_domain _ => opt_local_domain
  | flag_local_latency _ => opt_local_latency
  | flag_remote_upstream _ => opt_remote_upstream
  | flag_remote_domain _ => opt_remote_domain
  | flag_debug => opt_debug
  end.

(** Whether the option occurs on the command line. *)
Definition isSet (n : OptName) (cmdline : list Flag) : bool :=
  existsb (fun f => OptName_eqb (flag_name f) n) cmdline.

(** The [Opts] variable before parsing: every field at its zero value. *)
Definition zero_Options : Options := mkOptions "" 0 [] [] [] 0 [] [] false.

(** One occurrence stored into its field: a scalar is overwritten, a slice
    is appended to; an [int] value outside the range of [int] is a
    conversion error. *)
Definition set_flag (o : Options) (f : Flag) : error + Options :=
  match f with
  | flag_server v =>
      inr (mkOptions v (CacheSize o) (LocalUpstream o) (LocalIP o) (LocalDomain o)
             (LocalLatency o) (RemoteUpstream o) (RemoteDomain o) (Debug o))
  | flag_cache v =>
      if is_int v then
        inr (mkOptions (ServerAddr o) v (LocalUpstream o) (LocalIP o) (LocalDomain o)
               (LocalLatency o) (RemoteUpstream o) (RemoteDomain o) (Debug o))
      else inl (errorString "value out of range")
  | flag_local_upstream v =>
      inr (mkOptions (ServerAddr o) (CacheSize o) (LocalUpstream o ++ [v]) (LocalIP o)
             (LocalDomain o) (LocalLatency o) (RemoteUpstream o) (RemoteDomain o)
             (Debug o))
  | flag_local_ip v =>
      inr (mkOptions (ServerAddr o) (CacheSize o) (LocalUpstream o) (LocalIP o ++ [v])
             (LocalDomain o) (LocalLatency o) (RemoteUpstream o) (RemoteDomain o)
             (Debug o))
  | flag_local_domain v =>
      inr (mkOptions (ServerAddr o) (CacheSize o) (LocalUpstream o) (LocalIP o)
             (LocalDomain o ++ [v]) (LocalLatency o) (RemoteUpstream o)
             (RemoteDomain o) (Debug o))
  | flag_local_latency v =>
      if is_int v then
        inr (mkOptions (ServerAddr o) (CacheSize o) (LocalUpstream o) (LocalIP o)
               (LocalDomain o) v (RemoteUpstream o) (RemoteDomain o) (Debug o))
      else inl (errorString "value out of range")
  | flag_remote_upstream v =>
      inr (mkOptions (ServerAddr o) (CacheSize o) (LocalUpstream o) (LocalIP o)
             (LocalDomain o) (LocalLatency o) (RemoteUpstream o ++ [v])
             (RemoteDomain o) (Debug o))
  | flag_remote_domain v =>
      inr (mkOptions (ServerAddr o) (CacheSize o) (LocalUpstream o) (LocalIP o)
             (LocalDomain o) (LocalLatency o) (RemoteUpstream o)
             (RemoteDomain o ++ [v]) (Debug o))
  | flag_debug =>
      inr (mkOptions (ServerAddr o) (CacheSize o) (LocalUpstream o) (LocalIP o)
             (LocalDomain o) (LocalLatency o) (RemoteUpstream o) (RemoteDomain o)
             true)
  end.

Fixpoint set_flags (o : Options) (cmdline : list Flag) : error + Options :=
  match cmdline with
  | [] => inr o
  | f :: rest =>
      match set_flag o f with
      | inl err => inl err
      | inr o' => set_flags o' rest
      end
  end.

(** The struct tags of [Opts]: [default:"50"] on [LocalLatency], applied
    when the option does not occur; [required:"true"] on [ServerAddr],
    [LocalUpstream], [LocalIP] and [RemoteUpstream]. *)
Definition apply_defaults (cmdline : list Flag) (o : Options) : Options :=
  if isSet opt_local_latency cmdline then o
  else mkOptions (ServerAddr o) (CacheSize o) (LocalUpstream o) (LocalIP o)
         (LocalDomain o) 50 (RemoteUpstream o) (RemoteDomain o) (Debug o).

Definition required_set (cmdline : list Flag) : bool :=
  isSet opt_server cmdline && isSet opt_local_upstream cmdline &&
  isSet opt_local_ip cmdline && isSet opt_remote_upstream cmdline.

(** [flags.Parse(&Opts)]. *)
Definition flags_Parse (cmdline : list Flag) : error + Options :=
  match set_flags zero_Options cmdline with
  | inl err => inl err
  | inr o =>
      if required_set cmdline then inr (apply_defaults cmdline o)
      else inl (errorString "the required flags were not specified")
  end.

(** [main], from the process start to the state in which [run] blocks:
    a command line go-flags rejects ends in [os.Exit(1)]; otherwise [run]
    is started.  The wait for a signal that goes on beside [run] (on
    [os.Interrupt] or [SIGTERM], the line "%s, exiting" and [os.Exit(0)])
    is not part of it: [main] is the start-up left to itself, with no
    signal arriving before [run] has exited or reached the servers.  So
    [main] says what a start-up that is not interrupted does, not which
    exit statuses the process can have. *)
Definition main (cmdline : list Flag) : Outcome unit :=
  match flags_Parse cmdline with
  | inl _ => Exited 1 None
  | inr Opts => run Opts init_world
  end.

(** ** What a server does with a query *)

(** Each server passes a query to the handler it was built with; how the
    handler answers ([ServeDNS], in the package's handler file) is a
    parameter here. *)
Definition Server_serve {Q R : Type} (ServeDNS : cnHandler -> Q -> R)
    (w : World) (srv : Server) (q : Q) : option R :=
  match heap w !! srv_handler srv with
  | Some (ObjHandler c) => Some (ServeDNS c q)
  | _ => None
  end.

End Startup.

(** ** A test double for the collaborators

    Small stand-ins for the imported packages, enough to run [main] on
    concrete command lines: a URL reader that knows the scheme, the host
    and the query, a file table with two domain lists and one address
    list, and integers sorted by [<=] in place of address ranges. *)

Module Fixture.

(** [cut sep s]: [s] around the first occurrence of [sep]. *)
Fixpoint cut (sep s : string) : option (string * string) :=
  if HasPrefix s sep then
    Some (EmptyString, String.substring (String.length sep) (String.length s) s)
  else
    match s with
    | EmptyString => None
    | String a s' =>
        match cut sep s' with
        | Some (x, y) => Some (String a x, y)
        | None => None
        end
    end.

(** [fields n sep s]: [s] split at every [sep] (at most [n] pieces). *)
Fixpoint fields (n : nat) (sep s : string) : list string :=
  match n with
  | O => [s]
  | S n' =>
      match cut sep s with
      | Some (x, y) => x :: fields n' sep y
      | None => [s]
      end
  end.

Definition Parse (s : string) : error + url.URL :=
  if Contains s " " then inl (errorString "invalid character in host name")
  else
    match cut "://" s with
    | None => inl (errorString "missing protocol scheme")
    | Some (scheme, rest) =>
        match cut "?" rest with
        | None => inr (url.mkURL scheme "" "" rest "" false "" "")
        | Some (host, q) =>
            inr (url.mkURL scheme "" "" host "" (String.eqb q "") q "")
        end
    end.

Definition add_pair (v : url.Values) (kv : string) : url.Values :=
  let '(k, x) := match cut "=" kv with Some p => p | None => (kv, EmptyString) end in
  <[k := default [] (v !! k) ++ [x]]> v.

Definition ParseQuery (q : string) : url.Values :=
  if String.eqb q "" then ∅
  else fold_left add_pair (fields (String.length q) "&" q) ∅.

Definition String_ (u : url.URL) : string :=
  url.Scheme u +:+ "://" +:+ url.Host u +:+ url.Path u +:+
  (if url.ForceQuery u || negb (String.eqb (url.RawQuery u) "")
   then "?" +:+ url.RawQuery u else "").

(** An upstream is its three arguments; only four schemes are known. *)
Definition NewFast (addr socks5 netAddr : string) : error + (string * string * string) :=
  if HasPrefix addr "udp://" || HasPrefix addr "tcp://" ||
     HasPrefix addr "tls://" || HasPrefix addr "https://"
  then inr (addr, socks5, netAddr)
  else inl (errorString "unsupported protocol").

(** The file table. *)
Definition domain_file (f : string) : option (list string) :=
  if String.eqb f "cn.txt" then Some ["cn"; "example.com.cn"]
  else if String.eqb f "direct.txt" then Some ["lan"]
  else if String.eqb f "proxy.txt" then Some ["example.org"]
  else None.

Definition ip_file (f : string) : option (list Z) :=
  if String.eqb f "cn-ip.txt" then Some [30; 10; 20]
  else if String.eqb f "lan-ip.txt" then Some [15]
  else None.

Definition LoadDomain (m : list string) (f : string) : error + list string :=
  match domain_file f with
  | Some d => inr (m ++ d)
  | None => inl (errorString "no such file")
  end.

Definition LoadIP (l : list Z) (f : string) : error + list Z :=
  match ip_file f with
  | Some d => inr (l ++ d)
  | None => inl (errorString "no such file")
  end.

Definition ext : External (string * string * string) (list string) (list Z) := {|
  url_Parse := Parse;
  url_ParseQuery := ParseQuery;
  url_String := String_;
  NewFastUpstream := NewFast;
  NewMixMatcher := [];
  domain_LoadFromFile := LoadDomain;
  MixMatcher_Len := fun m => Z.of_nat (length m);
  netlist_NewList := [];
  netlist_LoadFromFile := LoadIP;
  netlist_Sort := merge_sort Z.le;
  netlist_Len := fun l => Z.of_nat (length l)
|}.

#[local] Existing Instance ext.

(** A command line with everything on it, and the same one cut down. *)
Definition cmdline_full : list Flag :=
  [ flag_server "127.0.0.1:53"; flag_cache 1027;
    flag_local_upstream "223.5.5.5";
    flag_local_upstream "tcp://119.29.29.29?netaddr=10.0.0.2:0";
    flag_local_ip "cn-ip.txt"; flag_local_ip "lan-ip.txt";
    flag_local_domain "cn.txt"; flag_local_domain "direct.txt";
    flag_remote_upstream "tls://8.8.8.8:853?socks5=127.0.0.1:1080";
    flag_remote_upstream "https://1.1.1.1/dns-query";
    flag_remote_domain "proxy.txt" ].

Definition cmdline_min : list Flag :=
  [ flag_server ":53"; flag_local_upstream "223.5.5.5";
    flag_local_ip "cn-ip.txt"; flag_remote_upstream "8.8.8.8" ].

(** The second command line with a local latency added. *)
Definition cmdline_latency (v : Z) : list Flag :=
  cmdline_min ++ [flag_local_latency v].

(** The options go-flags makes of the two command lines. *)
Definition opts_full : Options :=
  mkOptions "127.0.0.1:53" 1027
    ["223.5.5.5"; "tcp://119.29.29.29?netaddr=10.0.0.2:0"]
    ["cn-ip.txt"; "lan-ip.txt"] ["cn.txt"; "direct.txt"] 50
    ["tls://8.8.8.8:853?socks5=127.0.0.1:1080"; "https://1.1.1.1/dns-query"]
    ["proxy.txt"] false.

Definition opts_min : Options :=
  mkOptions ":53" 0 ["223.5.5.5"] ["cn-ip.txt"] [] 50 ["8.8.8.8"] [] false.

Definition opts_latency (v : Z) : Options :=
  mkOptions ":53" 0 ["223.5.5.5"] ["cn-ip.txt"] [] v ["8.8.8.8"] [] false.

(** Options with a remote upstream whose address does not parse. *)
Definition opts_bad : Options :=
  mkOptions ":53" 0 ["223.5.5.5"] ["cn-ip.txt"] [] 50
    ["8.8.8.8"; "dns google"] [] false.

(** The state a start-up ends in ([init_world] when it does not reach
    the servers). *)
Definition final_world
    (o : @Outcome (string * string * string) (list string) (list Z) unit) :
    @World (string * string * string) (list string) (list Z) :=
  match o with
  | Running _ w => w
  | _ => init_world
  end.

Definition w_full : World := final_world (run opts_full init_world).
Definition w_min : World := final_world (run opts_min init_world).
Definition w_latency (v : Z) : World := final_world (run (opts_latency v) init_world).

End Fixture.


(** ** Views of the command line *)

(** The values of the occurrences of one list option, in the order of the
    command line. *)
Definition local_upstream_values (cmdline : list Flag) : list string :=
  flat_map (fun f => match f with flag_local_upstream v => [v] | _ => [] end) cmdline.

Definition remote_upstream_values (cmdline : list Flag) : list string :=
  flat_map (fun f => match f with flag_remote_upstream v => [v] | _ => [] end) cmdline.

Section LogView.

Context {FastUpstream MixMatcher NetList : Type}.
Context `{Ext : External FastUpstream MixMatcher NetList}.

(** The lines a start-up that reaches the servers has logged. *)
Definition final_log (Opts : Options) (lm rm : MixMatcher) (l : NetList) : list LogLine :=
  ((if (0 <? length (LocalDomain Opts))%nat
    then [mkLogLine "Local domain matcher loaded, length: %d" [AInt (MixMatcher_Len lm)]]
    else []) ++
   (if (0 <? length (RemoteDomain Opts))%nat
    then [mkLogLine "Remote domain matcher loaded, length: %d" [AInt (MixMatcher_Len rm)]]
    else [])) ++
  [mkLogLine "Local IP matcher loaded, length: %d" [AInt (netlist_Len (netlist_Sort l))]].

End LogView.

(** ** More command lines and options for the test double *)

Module Cases.

(** No server address. *)
Definition cmdline_no_server : list Flag :=
  [ flag_local_upstream "223.5.5.5"; flag_local_ip "cn-ip.txt";
    flag_remote_upstream "8.8.8.8" ].

(** The verbose switch. *)
Definition cmdline_debug : list Flag :=
  [ flag_debug; flag_server ":53"; flag_local_upstream "223.5.5.5";
    flag_local_upstream "tcp://119.29.29.29";
    flag_local_ip "cn-ip.txt"; flag_remote_upstream "tls://8.8.8.8:853" ].

(** Local upstreams of which the second does not parse and the third is of
    an unknown protocol; a bad remote upstream and a missing file besides. *)
Definition opts_bad_local : Options :=
  mkOptions ":53" 0 ["223.5.5.5"; "dns google"; "quic://9.9.9.9"] ["none.txt"] [] 50
    ["dns google"] [] false.

(** Local upstreams of which the second is of an unknown protocol. *)
Definition opts_unknown_local : Options :=
  mkOptions ":53" 0 ["223.5.5.5"; "quic://9.9.9.9"; "dns google"] ["cn-ip.txt"] [] 50
    ["8.8.8.8"] [] false.

(** Good upstreams and domain files, and an address file that is not
    there. *)
Definition opts_missing_ip : Options :=
  mkOptions ":53" 0 ["223.5.5.5"] ["cn-ip.txt"; "none.txt"] ["cn.txt"] 50
    ["8.8.8.8"] ["proxy.txt"] false.

(** An address file that exists, then one that does not, then one that
    does. *)
Definition ip_files_gap : list string := ["cn-ip.txt"; "none.txt"; "lan-ip.txt"].

(** A state with an address list holding one entry and an empty mix
    matcher on the heap. *)
Definition w_objects : @World (string * string * string) (list string) (list Z) :=
  mkWorld InfoLevel [] [ObjNetList [5]; ObjMixMatcher []] [].

(** The state the start-up from the verbose command line ends in. *)
Definition w_debug : @World (string * string * string) (list string) (list Z) :=
  Fixture.final_world (@main _ _ _ Fixture.ext cmdline_debug).

End Cases.

(** * Properties *)

Section StartupFacts.

Context {FastUpstream MixMatcher NetList : Type}.
Context `{Ext : External FastUpstream MixMatcher NetList}.

(** ** Integers and strings *)

Lemma wrap64_small (z : Z) : int64_min <= z <= int64_max -> wrap64 z = z.
Proof.
  unfold wrap64, int64_min, int64_max. intros Hz.
  rewrite Z.mod_small by lia. lia.
Qed.

Lemma wrap64_mul_wrap64 (a b : Z) : wrap64 (a * wrap64 b) = wrap64 (a * b).
Proof.
  unfold wrap64. f_equal.
  pose proof (Z.div_mod (b + 2 ^ 63) (2 ^ 64) ltac:(lia)) as Hdm.
  replace (a * ((b + 2 ^ 63) mod 2 ^ 64 - 2 ^ 63) + 2 ^ 63)
    with (a * b + 2 ^ 63 + (- a * ((b + 2 ^ 63) / 2 ^ 64)) * 2 ^ 64) by lia.
  apply Z_mod_plus_full.
Qed.

Lemma Contains_udp_prefix (s : string) : Contains ("udp://" +:+ s) "://" = true.
Proof. cbn. destruct s; reflexivity. Qed.

(** ** One step through a pointer *)

Lemma get_handler_at (w : @World FastUpstream MixMatcher NetList) (h : ptr) (c : cnHandler) :
  heap w !! h = Some (ObjHandler c) -> get_handler h w = Running c w.
Proof. unfold get_handler. intros ->. reflexivity. Qed.

Lemma put_at (w : @World FastUpstream MixMatcher NetList) (p : ptr) (o o' : Object) :
  heap w !! p = Some o ->
  put p o' w = Running tt (with_heap w (<[p := o']> (heap w))).
Proof. unfold put. intros ->. reflexivity. Qed.

Lemma assign_at (w : @World FastUpstream MixMatcher NetList) (h : ptr) (c : cnHandler)
    (f : cnHandler -> cnHandler) :
  heap w !! h = Some (ObjHandler c) ->
  assign h f w = Running tt (with_heap w (<[h := ObjHandler (f c)]> (heap w))).
Proof.
  intros Hh. unfold assign, bind.
  rewrite (get_handler_at _ _ _ Hh). apply (put_at _ _ _ _ Hh).
Qed.

Lemma bind_Running {A B : Type} (m : M A) (k : A -> M B)
    (w w1 : @World FastUpstream MixMatcher NetList) (a : A) :
  m w = Running a w1 -> bind m k w = k a w1.
Proof. unfold bind. intros ->. reflexivity. Qed.

Lemma bind_Exited {A B : Type} (m : M A) (k : A -> M B)
    (w : @World FastUpstream MixMatcher NetList)
    (code : Z) (line : option LogLine) :
  m w = Exited code line -> bind m k w = Exited code line.
Proof. unfold bind. intros ->. reflexivity. Qed.

Lemma with_heap_same (w : @World FastUpstream MixMatcher NetList) : with_heap w (heap w) = w.
Proof. destruct w; reflexivity. Qed.

(** ** The loops over the upstream lists *)

Section UpstreamLoop.

Variables (h : ptr) (which : string).
Variable field : @cnHandler FastUpstream NetList -> list (@upstreamWrapper FastUpstream).
Variable set_field :
  list (@upstreamWrapper FastUpstream) ->
  @cnHandler FastUpstream NetList -> @cnHandler FastUpstream NetList.
Hypothesis field_set : forall v c, field (set_field v c) = v.
Hypothesis set_set : forall v v' c, set_field v (set_field v' c) = set_field v c.
Hypothesis set_same : forall c, set_field (field c) c = c.

Lemma upstream_body_cases (i : nat) (s : string) (w : World) (c : cnHandler) :
  heap w !! h = Some (ObjHandler c) ->
  (upstream_entry_fails s /\
   exists line, upstream_body h which field set_field i s w = Exited 1 (Some line)) \/
  (exists u, built i s u /\
     upstream_body h which field set_field i s w =
     Running tt (with_heap w (<[h := ObjHandler (set_field (field c ++ [u]) c)]> (heap w)))).
Proof.
  intros Hh. unfold upstream_body, upstream_entry_fails, built.
  destruct (splitArgs s) as [err | [[addr socks5] netAddr]].
  - left. split; [exact I | eexists; reflexivity].
  - destruct (NewFastUpstream addr socks5 netAddr) as [err | fu] eqn:Hfu.
    + left. split; [exact I | eexists; reflexivity].
    + right. exists (wrapFU fu (Nat.eqb i 0)). split.
      * split; [destruct i; reflexivity |].
        exists addr, socks5, netAddr. split; [reflexivity | exact Hfu].
      * unfold bind. rewrite (get_handler_at _ _ _ Hh).
        rewrite (put_at _ _ _ _ Hh). destruct i; reflexivity.
Qed.

Lemma upstream_loop_cases (l : list string) :
  forall (i : nat) (w : World) (c : cnHandler),
    heap w !! h = Some (ObjHandler c) ->
    ((exists s, s ∈ l /\ upstream_entry_fails s) /\
     exists line,
       forRange (upstream_body h which field set_field) i l w = Exited 1 (Some line)) \/
    (exists us,
       Forall2 (fun _ _ => True) l us /\
       (forall k s u, l !! k = Some s -> us !! k = Some u -> built (i + k) s u) /\
       forRange (upstream_body h which field set_field) i l w =
       Running tt (with_heap w (<[h := ObjHandler (set_field (field c ++ us) c)]> (heap w)))).
Proof.
  induction l as [| s l IH]; intros i w c Hh.
  - right. exists []. split; [constructor |]. split.
    + intros k s u Hk. rewrite lookup_nil in Hk. discriminate.
    + unfold forRange, ret. rewrite app_nil_r, set_same.
      rewrite (list_insert_id _ _ _ Hh), with_heap_same. reflexivity.
  - cbn [forRange]. unfold bind.
    destruct (upstream_body_cases i s w c Hh) as [[Hbad [line Hex]] | [u [Hu Hrun]]].
    + left. split.
      * exists s. split; [apply list_elem_of_here | exact Hbad].
      * exists line. rewrite Hex. reflexivity.
    + rewrite Hrun. cbv beta iota.
      set (c1 := set_field (field c ++ [u]) c).
      set (w1 := with_heap w (<[h := ObjHandler c1]> (heap w))).
      assert (Hh1 : heap w1 !! h = Some (ObjHandler c1)).
      { cbn. apply list_lookup_insert_eq. eapply lookup_lt_Some, Hh. }
      destruct (IH (S i) w1 c1 Hh1) as [[[s' [Hin Hbad]] [line Hex]] | [us [Hlen [Hall Hloop]]]].
      * left. split.
        -- exists s'. split; [apply list_elem_of_further, Hin | exact Hbad].
        -- exists line. exact Hex.
      * right. exists (u :: us). split; [constructor; [exact I | exact Hlen] |]. split.
        -- intros [| k] s' u' Hs' Hu'; cbn in Hs', Hu'.
           ++ injection Hs' as <-. injection Hu' as <-.
              rewrite Nat.add_0_r. exact Hu.
           ++ replace (i + S k)%nat with (S i + k)%nat by lia.
              eapply Hall; eassumption.
        -- rewrite Hloop. subst w1 c1. cbn [heap with_heap].
           rewrite field_set, set_set, list_insert_insert_eq, <- app_assoc.
           reflexivity.
Qed.

End UpstreamLoop.

(** ** The batch loaders *)

Lemma load_all_fails {T : Type} (load : T -> string -> error + T)
    (f : string) (files : list string) :
  f ∈ files -> file_fails load f ->
  forall t, exists err, load_all load t files = inl err.
Proof.
  intros Hin Hf. induction files as [| g files IH]; intros t.
  - inversion Hin.
  - cbn. destruct (load t g) as [err | t'] eqn:Hg; [eexists; reflexivity |].
    apply elem_of_cons in Hin as [-> | Hin].
    + destruct (Hf t) as [err Herr]. congruence.
    + apply IH, Hin.
Qed.

Lemma batchLoadDomainFile_at (files : list string) :
  forall (w : World) (m : ptr) (mm : MixMatcher),
    heap w !! m = Some (ObjMixMatcher mm) ->
    match load_all domain_LoadFromFile mm files with
    | inr mm' =>
        batchLoadDomainFile m files w =
        Running None (with_heap w (<[m := ObjMixMatcher mm']> (heap w)))
    | inl err => exists w', batchLoadDomainFile m files w = Running (Some err) w'
    end.
Proof.
  induction files as [| f files IH]; intros w m mm Hm.
  - cbn. unfold ret. rewrite (list_insert_id _ _ _ Hm), with_heap_same. reflexivity.
  - cbn [batchLoadDomainFile load_all]. unfold bind, get_matcher. rewrite Hm.
    destruct (domain_LoadFromFile mm f) as [err | mm1].
    + eexists. reflexivity.
    + rewrite (put_at _ _ _ _ Hm).
      assert (Hm1 : heap (with_heap w (<[m := ObjMixMatcher mm1]> (heap w))) !! m
                    = Some (ObjMixMatcher mm1)).
      { cbn. apply list_lookup_insert_eq. eapply lookup_lt_Some, Hm. }
      specialize (IH _ _ _ Hm1).
      destruct (load_all domain_LoadFromFile mm1 files) as [err | mm'].
      * exact IH.
      * rewrite IH. cbn [heap with_heap].
        rewrite list_insert_insert_eq. reflexivity.
Qed.

Lemma batchLoadIPFile_at (files : list string) :
  forall (w : World) (p : ptr) (nl : NetList),
    heap w !! p = Some (ObjNetList nl) ->
    match load_all netlist_LoadFromFile nl files with
    | inr nl' =>
        batchLoadIPFile p files w =
        Running None (with_heap w (<[p := ObjNetList nl']> (heap w)))
    | inl err => exists w', batchLoadIPFile p files w = Running (Some err) w'
    end.
Proof.
  induction files as [| f files IH]; intros w p nl Hp.
  - cbn. unfold ret. rewrite (list_insert_id _ _ _ Hp), with_heap_same. reflexivity.
  - cbn [batchLoadIPFile load_all]. unfold bind, get_netlist. rewrite Hp.
    destruct (netlist_LoadFromFile nl f) as [err | nl1].
    + eexists. reflexivity.
    + rewrite (put_at _ _ _ _ Hp).
      assert (Hp1 : heap (with_heap w (<[p := ObjNetList nl1]> (heap w))) !! p
                    = Some (ObjNetList nl1)).
      { cbn. apply list_lookup_insert_eq. eapply lookup_lt_Some, Hp. }
      specialize (IH _ _ _ Hp1).
      destruct (load_all netlist_LoadFromFile nl1 files) as [err | nl'].
      * exact IH.
      * rewrite IH. cbn [heap with_heap].
        rewrite list_insert_insert_eq. reflexivity.
Qed.

(** ** The blocks for the two domain lists *)

Lemma domain_block_cases (h : ptr) (Which which : string) (files : list string)
    (set_field : option QNameMatcher -> cnHandler -> cnHandler)
    (w : World) (c : cnHandler) :
  heap w !! h = Some (ObjHandler c) ->
  match load_all domain_LoadFromFile NewMixMatcher files with
  | inl err =>
      exists line,
        domain_block h Which which files set_field w = Exited 1 (Some line)
  | inr mm =>
      domain_block h Which which files set_field w =
      if (0 <? length files)%nat then
        Running tt
          (mkWorld (level w)
             (logged w ++ [mkLogLine (Which +:+ " domain matcher loaded, length: %d")
                             [AInt (MixMatcher_Len mm)]])
             (<[h := ObjHandler (set_field (Some (NewQNameMatcher (length (heap w)))) c)]>
                (heap w ++ [ObjMixMatcher mm]))
             (serving w))
      else Running tt w
  end.
Proof.
  intros Hh. unfold domain_block.
  destruct files as [| f files]; [reflexivity |].
  change (0 <? length (f :: files))%nat with true. cbv iota.
  set (fs := f :: files).
  set (w1 := with_heap w (heap w ++ [ObjMixMatcher NewMixMatcher])).
  assert (Ha : alloc (ObjMixMatcher NewMixMatcher) w = Running (length (heap w)) w1)
    by reflexivity.
  rewrite (bind_Running _ _ _ _ _ Ha).
  assert (Hm : heap w1 !! length (heap w) = Some (ObjMixMatcher NewMixMatcher)).
  { cbn. apply list_lookup_middle. reflexivity. }
  pose proof (batchLoadDomainFile_at fs w1 _ _ Hm) as Hload.
  destruct (load_all domain_LoadFromFile NewMixMatcher fs) as [err | mm].
  - destruct Hload as [w' Hload]. rewrite (bind_Running _ _ _ _ _ Hload).
    eexists. reflexivity.
  - rewrite (bind_Running _ _ _ _ _ Hload).
    cbn [heap with_heap w1].
    replace (<[length (heap w) := ObjMixMatcher mm]> (heap w ++ [ObjMixMatcher NewMixMatcher]))
      with (heap w ++ [ObjMixMatcher mm]).
    2:{ rewrite <- (Nat.add_0_r (length (heap w))) at 1.
        rewrite insert_app_r. reflexivity. }
    set (w2 := with_heap w1 (heap w ++ [ObjMixMatcher mm])).
    assert (Hg : get_matcher (length (heap w)) w2 = Running mm w2).
    { unfold get_matcher. cbn [heap with_heap w2].
      rewrite list_lookup_middle by reflexivity. reflexivity. }
    rewrite (bind_Running _ _ _ _ _ Hg).
    erewrite bind_Running by reflexivity.
    rewrite (assign_at _ h c).
    + reflexivity.
    + cbn. rewrite lookup_app_l; [exact Hh | eapply lookup_lt_Some, Hh].
Qed.

(** ** [run], stage by stage *)

Lemma insert_last {A : Type} (l : list A) (x y : A) :
  <[length l := y]> (l ++ [x]) = l ++ [y].
Proof.
  rewrite <- (Nat.add_0_r (length l)). rewrite insert_app_r. reflexivity.
Qed.

Lemma lookup_S_last {A : Type} (o : A) (l : list A) (x : A) :
  (o :: l ++ [x]) !! S (length l) = Some x.
Proof. cbn. apply list_lookup_middle. reflexivity. Qed.

Lemma insert_S_last {A : Type} (o : A) (l : list A) (x y : A) :
  <[S (length l) := y]> (o :: l ++ [x]) = o :: l ++ [y].
Proof.
  change (<[S (length l) := y]> (o :: l ++ [x])) with (o :: <[length l := y]> (l ++ [x])).
  rewrite insert_last. reflexivity.
Qed.

Lemma run_cases (Opts : Options) :
  (exists line, run Opts init_world = Exited 1 (Some line)) \/
  (exists lus rus lm rm l logs,
     run Opts init_world =
     Running tt
       (mkWorld (if Debug Opts then DebugLevel else InfoLevel) logs
          (ObjHandler
             (final_handler Opts lus rus
                (S (length (@final_matchers FastUpstream MixMatcher NetList Opts lm rm)))
                (netlist_Sort l))
           :: final_matchers Opts lm rm ++ [ObjNetList (netlist_Sort l)])
          [NewServer "udp" (ServerAddr Opts) 0; NewServer "tcp" (ServerAddr Opts) 0]) /\
     (Forall2 (fun _ _ => True) (LocalUpstream Opts) lus /\
      forall k s u, LocalUpstream Opts !! k = Some s -> lus !! k = Some u -> built k s u) /\
     (Forall2 (fun _ _ => True) (RemoteUpstream Opts) rus /\
      forall k s u, RemoteUpstream Opts !! k = Some s -> rus !! k = Some u -> built k s u) /\
     load_all domain_LoadFromFile NewMixMatcher (LocalDomain Opts) = inr lm /\
     load_all domain_LoadFromFile NewMixMatcher (RemoteDomain Opts) = inr rm /\
     load_all netlist_LoadFromFile netlist_NewList (LocalIP Opts) = inr l).
Proof.
  unfold run.
  set (lvl := if Debug Opts then DebugLevel else InfoLevel).
  (* the log level *)
  assert (HA : (if Debug Opts then SetLevel DebugLevel else SetLevel InfoLevel)
                 (@init_world FastUpstream MixMatcher NetList)
               = Running tt (@mkWorld FastUpstream MixMatcher NetList lvl [] [] [])).
  { subst lvl. destruct (Debug Opts); reflexivity. }
  rewrite (bind_Running _ _ _ _ _ HA). clear HA.
  (* the handler *)
  erewrite bind_Running by reflexivity. cbn [length heap].
  (* the cache *)
  set (oc := if 8 <? CacheSize Opts
             then Some (NewMemCache 8 (int_div (CacheSize Opts) 8) Minute) else None).
  set (c1 := @mkHandler FastUpstream NetList oc [] [] None None None 0).
  assert (HC : (if 8 <? CacheSize Opts
                then assign 0%nat (set_cache
                       (Some (NewMemCache 8 (int_div (CacheSize Opts) 8) Minute)))
                else ret tt)
                 (with_heap (@mkWorld FastUpstream MixMatcher NetList lvl [] [] []) ([] ++ [ObjHandler zero_cnHandler]))
               = Running tt (@mkWorld FastUpstream MixMatcher NetList lvl [] [ObjHandler c1] [])).
  { subst c1 oc. destruct (8 <? CacheSize Opts); reflexivity. }
  rewrite (bind_Running _ _ _ _ _ HC). clear HC.
  (* the local upstreams *)
  destruct (upstream_loop_cases 0%nat "local" localUpstream set_localUpstream
              (fun _ _ => eq_refl) (fun _ _ _ => eq_refl)
              (fun c => match c with mkHandler _ _ _ _ _ _ _ => eq_refl end)
              (LocalUpstream Opts) 0%nat (@mkWorld FastUpstream MixMatcher NetList lvl [] [ObjHandler c1] []) c1 eq_refl)
    as [[_ [line HD]] | [lus [HlusL [Hlus HD]]]].
  { left. exists line. rewrite (bind_Exited _ _ _ _ _ HD). reflexivity. }
  rewrite (bind_Running _ _ _ _ _ HD). clear HD.
  cbn [with_heap heap level logged serving insert list_insert localUpstream c1 app
       set_localUpstream cache remoteUpstream localDomain remoteDomain localIP
       localLatency].
  set (c2 := @mkHandler FastUpstream NetList oc lus [] None None None 0).
  (* the remote upstreams *)
  destruct (upstream_loop_cases 0%nat "remote" remoteUpstream set_remoteUpstream
              (fun _ _ => eq_refl) (fun _ _ _ => eq_refl)
              (fun c => match c with mkHandler _ _ _ _ _ _ _ => eq_refl end)
              (RemoteUpstream Opts) 0%nat (@mkWorld FastUpstream MixMatcher NetList lvl [] [ObjHandler c2] []) c2 eq_refl)
    as [[_ [line HE]] | [rus [HrusL [Hrus HE]]]].
  { left. exists line. rewrite (bind_Exited _ _ _ _ _ HE). reflexivity. }
  rewrite (bind_Running _ _ _ _ _ HE). clear HE.
  cbn [with_heap heap level logged serving insert list_insert remoteUpstream c2 app
       set_remoteUpstream cache localUpstream localDomain remoteDomain localIP
       localLatency].
  set (c3 := @mkHandler FastUpstream NetList oc lus rus None None None 0).
  (* the local domains *)
  pose proof (domain_block_cases 0%nat "Local" "local" (LocalDomain Opts) set_localDomain
                (@mkWorld FastUpstream MixMatcher NetList lvl [] [ObjHandler c3] []) c3 eq_refl) as HF.
  destruct (load_all domain_LoadFromFile NewMixMatcher (LocalDomain Opts)) as [err | lm].
  { destruct HF as [line HF]. left. exists line.
    rewrite (bind_Exited _ _ _ _ _ HF). reflexivity. }
  set (bl := (0 <? length (LocalDomain Opts))%nat) in *.
  set (c4 := @mkHandler FastUpstream NetList oc lus rus (if bl then Some (NewQNameMatcher 1) else None)
               None None 0).
  set (restL := if bl then [@ObjMixMatcher FastUpstream MixMatcher NetList lm] else []).
  assert (HF' : exists logs,
             domain_block 0%nat "Local" "local" (LocalDomain Opts) set_localDomain
               (@mkWorld FastUpstream MixMatcher NetList lvl [] [ObjHandler c3] [])
             = Running tt (@mkWorld FastUpstream MixMatcher NetList lvl logs (ObjHandler c4 :: restL) [])).
  { rewrite HF. subst c4 restL. destruct bl; eexists; reflexivity. }
  clear HF. destruct HF' as [logsF HF].
  rewrite (bind_Running _ _ _ _ _ HF). clear HF.
  (* the remote domains *)
  pose proof (domain_block_cases 0%nat "Remote" "remote" (RemoteDomain Opts) set_remoteDomain
                (@mkWorld FastUpstream MixMatcher NetList lvl logsF (ObjHandler c4 :: restL) []) c4 eq_refl) as HG.
  destruct (load_all domain_LoadFromFile NewMixMatcher (RemoteDomain Opts)) as [err | rm].
  { destruct HG as [line HG]. left. exists line.
    rewrite (bind_Exited _ _ _ _ _ HG). reflexivity. }
  set (br := (0 <? length (RemoteDomain Opts))%nat) in *.
  set (c5 := @mkHandler FastUpstream NetList oc lus rus (if bl then Some (NewQNameMatcher 1) else None)
               (if br then Some (NewQNameMatcher (if bl then 2 else 1)%nat) else None)
               None 0).
  set (rest := restL ++ (if br then [ObjMixMatcher rm] else [])).
  assert (HG' : exists logs,
             domain_block 0%nat "Remote" "remote" (RemoteDomain Opts) set_remoteDomain
               (@mkWorld FastUpstream MixMatcher NetList lvl logsF (ObjHandler c4 :: restL) [])
             = Running tt (@mkWorld FastUpstream MixMatcher NetList lvl logs (ObjHandler c5 :: rest) [])).
  { rewrite HG. subst c5 rest restL c4. destruct br, bl; eexists; reflexivity. }
  clear HG. destruct HG' as [logsG HG].
  rewrite (bind_Running _ _ _ _ _ HG). clear HG.
  (* the address list *)
  erewrite bind_Running by reflexivity.
  cbn [with_heap heap level logged serving length].
  change ((ObjHandler c5 :: rest) ++ [ObjNetList netlist_NewList])
    with (ObjHandler c5 :: rest ++ [ObjNetList netlist_NewList]).
  set (wH := mkWorld lvl logsG (ObjHandler c5 :: rest ++ [ObjNetList netlist_NewList]) []).
  assert (Hnl : heap wH !! S (length rest) = Some (ObjNetList netlist_NewList)).
  { apply lookup_S_last. }
  pose proof (batchLoadIPFile_at (LocalIP Opts) wH _ _ Hnl) as HI.
  destruct (load_all netlist_LoadFromFile netlist_NewList (LocalIP Opts)) as [err | l].
  { destruct HI as [w' HI]. left. eexists.
    rewrite (bind_Running _ _ _ _ _ HI). reflexivity. }
  rewrite (bind_Running _ _ _ _ _ HI). clear HI.
  cbn [with_heap heap level logged serving wH].
  rewrite insert_S_last.
  right. exists lus, rus, lm, rm, l.
  (* sorting, wrapping, the latency and the servers *)
  set (w1 := mkWorld lvl logsG (ObjHandler c5 :: rest ++ [ObjNetList l]) []).
  assert (H1 : get_netlist (S (length rest)) w1 = Running l w1).
  { unfold get_netlist. cbn [heap w1]. rewrite lookup_S_last. reflexivity. }
  rewrite (bind_Running _ _ _ _ _ H1).
  assert (H2 : put (S (length rest)) (ObjNetList (netlist_Sort l)) w1
               = Running tt (@mkWorld FastUpstream MixMatcher NetList lvl logsG
                               (ObjHandler c5 :: rest ++ [ObjNetList (netlist_Sort l)]) [])).
  { unfold put. cbn [heap w1]. rewrite lookup_S_last.
    unfold with_heap. cbn [heap level logged serving].
    rewrite insert_S_last. reflexivity. }
  rewrite (bind_Running _ _ _ _ _ H2). clear H1 H2 w1.
  set (w2 := mkWorld lvl logsG (ObjHandler c5 :: rest ++ [ObjNetList (netlist_Sort l)]) []).
  assert (H3 : get_netlist (S (length rest)) w2 = Running (netlist_Sort l) w2).
  { unfold get_netlist. cbn [heap w2]. rewrite lookup_S_last. reflexivity. }
  rewrite (bind_Running _ _ _ _ _ H3).
  erewrite bind_Running by reflexivity.
  assert (H4 : NewAAAAAIPMatcher (S (length rest))
                 (mkWorld (level w2)
                    (logged w2 ++ [mkLogLine "Local IP matcher loaded, length: %d"
                                     [AInt (netlist_Len (netlist_Sort l))]])
                    (heap w2) (serving w2))
               = Running (mkAAAAAIPMatcher (S (length rest)) (netlist_Sort l))
                   (mkWorld (level w2)
                      (logged w2 ++ [mkLogLine "Local IP matcher loaded, length: %d"
                                       [AInt (netlist_Len (netlist_Sort l))]])
                      (heap w2) (serving w2))).
  { unfold NewAAAAAIPMatcher. erewrite bind_Running; [reflexivity |].
    unfold get_netlist. cbn [heap w2]. rewrite lookup_S_last. reflexivity. }
  rewrite (bind_Running _ _ _ _ _ H4). clear H3 H4.
  eexists. split; [reflexivity |].
  split; [split; assumption |]. split; [split; assumption |].
  split; [reflexivity |]. split; reflexivity.
Qed.

Lemma run_running (Opts : Options) (w : World) :
  run Opts init_world = Running tt w ->
  exists lus rus lm rm l logs,
    w = mkWorld (if Debug Opts then DebugLevel else InfoLevel) logs
          (ObjHandler
             (final_handler Opts lus rus
                (S (length (@final_matchers FastUpstream MixMatcher NetList Opts lm rm)))
                (netlist_Sort l))
           :: final_matchers Opts lm rm ++ [ObjNetList (netlist_Sort l)])
          [NewServer "udp" (ServerAddr Opts) 0; NewServer "tcp" (ServerAddr Opts) 0] /\
    (Forall2 (fun _ _ => True) (LocalUpstream Opts) lus /\
     forall k s u, LocalUpstream Opts !! k = Some s -> lus !! k = Some u -> built k s u) /\
    (Forall2 (fun _ _ => True) (RemoteUpstream Opts) rus /\
     forall k s u, RemoteUpstream Opts !! k = Some s -> rus !! k = Some u -> built k s u) /\
    load_all domain_LoadFromFile NewMixMatcher (LocalDomain Opts) = inr lm /\
    load_all domain_LoadFromFile NewMixMatcher (RemoteDomain Opts) = inr rm /\
    load_all netlist_LoadFromFile netlist_NewList (LocalIP Opts) = inr l.
Proof.
  intros Hrun.
  destruct (run_cases Opts) as [[line Hex] | (lus & rus & lm & rm & l & logs & Hw & Hrest)].
  - congruence.
  - rewrite Hw in Hrun. injection Hrun as <-.
    exists lus, rus, lm, rm, l, logs. split; [reflexivity | exact Hrest].
Qed.

(** The handles of a list that went through the loop, read off [built]. *)
Lemma built_handles (entries : list string) (us : list upstreamWrapper) :
  Forall2 (fun _ _ => True) entries us ->
  (forall k s u, entries !! k = Some s -> us !! k = Some u -> built k s u) ->
  length us = length entries /\
  forall i u, us !! i = Some u ->
    (trusted u = true <-> i = 0%nat) /\
    exists s addr socks5 netAddr,
      entries !! i = Some s /\
      splitArgs s = inr (addr, socks5, netAddr) /\
      NewFastUpstream addr socks5 netAddr = inr (wrapped u).
Proof.
  intros Hlen Hall. split.
  - symmetry. eapply Forall2_length, Hlen.
  - intros i u Hu.
    destruct (Forall2_lookup_r _ _ _ _ _ Hlen Hu) as [s [Hs _]].
    destruct (Hall i s u Hs Hu) as [Ht (addr & socks5 & netAddr & Hsplit & Hnew)].
    split.
    + rewrite Ht. destruct i; cbn; split; intros; congruence.
    + exists s, addr, socks5, netAddr. auto.
Qed.

(** ** The claims *)

(** C1. On every run that reaches the servers, the handler's local and
    remote upstream lists have one handle per configured entry, in order;
    the handle at index [i] is built from entry [i], and it carries
    [trusted = true] exactly when [i = 0]. *)
Theorem first_upstream_trusted (Opts : Options) (w : World) :
  run Opts init_world = Running tt w ->
  exists c, handler_of w = Some c /\
    (length (localUpstream c) = length (LocalUpstream Opts) /\
     forall i u, localUpstream c !! i = Some u ->
       (trusted u = true <-> i = 0%nat) /\
       exists s addr socks5 netAddr,
         LocalUpstream Opts !! i = Some s /\
         splitArgs s = inr (addr, socks5, netAddr) /\
         NewFastUpstream addr socks5 netAddr = inr (wrapped u)) /\
    (length (remoteUpstream c) = length (RemoteUpstream Opts) /\
     forall i u, remoteUpstream c !! i = Some u ->
       (trusted u = true <-> i = 0%nat) /\
       exists s addr socks5 netAddr,
         RemoteUpstream Opts !! i = Some s /\
         splitArgs s = inr (addr, socks5, netAddr) /\
         NewFastUpstream addr socks5 netAddr = inr (wrapped u)).
Proof.
  intros Hrun.
  destruct (run_running _ _ Hrun)
    as (lus & rus & lm & rm & l & logs & -> & [HL1 HL2] & [HR1 HR2] & _).
  eexists. split; [reflexivity |]. cbn [localUpstream remoteUpstream final_handler].
  split; apply built_handles; assumption.
Qed.

(** C2. On every run that reaches the servers, the handler has no cache
    object exactly when the configured capacity is at most 8, and has one
    whenever it is greater than 8. *)
Theorem cache_disabled_iff_small (Opts : Options) (w : World) :
  run Opts init_world = Running tt w ->
  exists c, handler_of w = Some c /\
    (cache c = None <-> CacheSize Opts <= 8) /\
    (8 < CacheSize Opts -> exists mc, cache c = Some mc).
Proof.
  intros Hrun.
  destruct (run_running _ _ Hrun) as (lus & rus & lm & rm & l & logs & -> & _).
  eexists. split; [reflexivity |]. cbn [cache final_handler].
  destruct (Z.ltb_spec 8 (CacheSize Opts)) as [Hlt | Hge].
  - split; [split; [discriminate | lia] | intros _; eexists; reflexivity].
  - split; [split; [lia | reflexivity] | lia].
Qed.

(** C3. For a configured capacity [c > 8] the cache has 8 shards of
    capacity [c / 8] (rounded down) each; the total [8 * (c / 8)] is at
    most [c], and less than [c] when [c] is not a multiple of 8. *)
Theorem cache_shards (Opts : Options) (w : World) :
  run Opts init_world = Running tt w ->
  8 < CacheSize Opts ->
  exists c mc, handler_of w = Some c /\ cache c = Some mc /\
    shardNum mc = 8 /\
    maxSizePerShard mc = CacheSize Opts / 8 /\
    shardNum mc * maxSizePerShard mc <= CacheSize Opts /\
    (CacheSize Opts mod 8 <> 0 -> shardNum mc * maxSizePerShard mc < CacheSize Opts).
Proof.
  intros Hrun Hc.
  destruct (run_running _ _ Hrun) as (lus & rus & lm & rm & l & logs & -> & _).
  eexists. eexists. split; [reflexivity |]. cbn [cache final_handler].
  destruct (Z.ltb_spec 8 (CacheSize Opts)) as [_ | Hge]; [| lia].
  split; [reflexivity |]. cbn [shardNum maxSizePerShard]. unfold int_div.
  rewrite Z.quot_div_nonneg by lia.
  pose proof (Z.div_mod (CacheSize Opts) 8 ltac:(lia)) as Hdm.
  pose proof (Z.mod_pos_bound (CacheSize Opts) 8 ltac:(lia)) as Hm.
  repeat split; lia.
Qed.

(** The latency [run] stores, as a 64-bit product. *)
Lemma run_local_latency (Opts : Options) (w : World) :
  run Opts init_world = Running tt w ->
  exists c, handler_of w = Some c /\
    localLatency c = wrap64 (LocalLatency Opts * 1000000).
Proof.
  intros Hrun.
  destruct (run_running _ _ Hrun) as (lus & rus & lm & rm & l & logs & -> & _).
  eexists. split; [reflexivity |]. cbn [localLatency final_handler].
  unfold Duration_mul. rewrite wrap64_mul_wrap64.
  change Millisecond with 1000000.
  rewrite (Z.mul_comm 1000000). reflexivity.
Qed.

(** C4, as amended. On every run that reaches the servers, the handler's
    [localLatency] is the [int64] product of one millisecond and the
    configured value: the configured number of milliseconds, zero and
    negative values included, whenever that number of nanoseconds fits
    an [int64] (from -9223372036854 to 9223372036854), and the product
    reduced to 64 bits in general. *)
Theorem local_latency_milliseconds (Opts : Options) (w : World) :
  run Opts init_world = Running tt w ->
  exists c, handler_of w = Some c /\
    localLatency c = wrap64 (LocalLatency Opts * 1000000) /\
    (-9223372036854 <= LocalLatency Opts <= 9223372036854 ->
     localLatency c = LocalLatency Opts * Millisecond).
Proof.
  intros Hrun.
  destruct (run_local_latency _ _ Hrun) as [c [Hc Hl]].
  exists c. split; [exact Hc |]. split; [exact Hl |].
  intros Hv. rewrite Hl. change Millisecond with 1000000.
  apply wrap64_small. unfold int64_min, int64_max. lia.
Qed.

(** C5. A configuration error (an upstream entry that cannot be made into
    an upstream, a domain file or an address file that does not load) ends
    the start-up in [Fatalf]: the process exits with status 1, and no
    server is started. *)
Theorem config_error_fatal (Opts : Options) :
  config_error Opts ->
  exists line, run Opts init_world = Exited 1 (Some line).
Proof.
  intros Herr.
  destruct (run_cases Opts)
    as [Hex | (lus & rus & lm & rm & l & logs & _ & [HL1 HL2] & [HR1 HR2] & Hlm & Hrm & Hl)];
    [exact Hex | exfalso].
  assert (Hup : forall entries us s,
             Forall2 (fun _ _ => True) entries us ->
             (forall k s u, entries !! k = Some s -> us !! k = Some u -> built k s u) ->
             s ∈ entries -> upstream_entry_fails s -> False).
  { intros entries us s H1 H2 Hin Hbad.
    apply list_elem_of_lookup in Hin as [k Hk].
    destruct (Forall2_lookup_l _ _ _ _ _ H1 Hk) as [u [Hu _]].
    destruct (H2 k s u Hk Hu) as [_ (addr & socks5 & netAddr & Hsplit & Hnew)].
    unfold upstream_entry_fails in Hbad. rewrite Hsplit, Hnew in Hbad. exact Hbad. }
  destruct Herr as [[s [Hin Hbad]] | [[f [Hin Hbad]] | [f [Hin Hbad]]]].
  - apply elem_of_app in Hin as [Hin | Hin].
    + exact (Hup _ _ s HL1 HL2 Hin Hbad).
    + exact (Hup _ _ s HR1 HR2 Hin Hbad).
  - apply elem_of_app in Hin as [Hin | Hin].
    + destruct (load_all_fails _ _ _ Hin Hbad NewMixMatcher) as [err He]. congruence.
    + destruct (load_all_fails _ _ _ Hin Hbad NewMixMatcher) as [err He]. congruence.
  - destruct (load_all_fails _ _ _ Hin Hbad netlist_NewList) as [err He]. congruence.
Qed.

(** C6. On every run that reaches the servers, the list the handler's
    address matcher was handed is the sorted list: [Sort] applied to the
    list with every file of [Opts.LocalIP] loaded, in order.  The object
    the matcher points to still holds that list when the servers start;
    so, [Sort] doing what its name says, the matcher has a sorted list
    from the moment it is built. *)
Theorem local_ip_sorted_before_use (Sorted : NetList -> Prop)
    (Opts : Options) (w : World) :
  (forall l, Sorted (netlist_Sort l)) ->
  run Opts init_world = Running tt w ->
  exists c m l, handler_of w = Some c /\ localIP c = Some m /\
    load_all netlist_LoadFromFile netlist_NewList (LocalIP Opts) = inr l /\
    ip_list_given m = netlist_Sort l /\
    heap w !! ip_list m = Some (ObjNetList (netlist_Sort l)) /\
    Sorted (ip_list_given m) /\
    (forall l', heap w !! ip_list m = Some (ObjNetList l') -> Sorted l').
Proof.
  intros HSort Hrun.
  destruct (run_running _ _ Hrun)
    as (lus & rus & lm & rm & l & logs & -> & _ & _ & _ & _ & Hl).
  eexists. eexists. exists l. split; [reflexivity |].
  cbn [localIP final_handler]. split; [reflexivity |]. split; [exact Hl |].
  cbn [ip_list ip_list_given heap]. split; [reflexivity |].
  rewrite lookup_S_last. split; [reflexivity |]. split; [apply HSort |].
  intros l' Hl'. injection Hl' as <-. apply HSort.
Qed.

(** C7. A run that reaches the servers has started exactly two of them,
    a UDP one and a TCP one, on the configured address and with the same
    pointer to the one handler object on the heap; whatever [ServeDNS]
    is, both answer a query with it applied to that one handler. *)
Theorem two_listeners_one_handler (Opts : Options) (w : World) :
  run Opts init_world = Running tt w ->
  exists h c,
    serving w = [NewServer "udp" (ServerAddr Opts) h; NewServer "tcp" (ServerAddr Opts) h] /\
    heap w !! h = Some (ObjHandler c) /\
    (forall p c', heap w !! p = Some (ObjHandler c') -> p = h) /\
    forall (Q R : Type) (ServeDNS : cnHandler -> Q -> R) (q : Q),
      Server_serve ServeDNS w (NewServer "udp" (ServerAddr Opts) h) q = Some (ServeDNS c q) /\
      Server_serve ServeDNS w (NewServer "tcp" (ServerAddr Opts) h) q = Some (ServeDNS c q).
Proof.
  intros Hrun.
  destruct (run_running _ _ Hrun) as (lus & rus & lm & rm & l & logs & -> & _).
  exists 0%nat. eexists. cbn [serving heap].
  split; [reflexivity |]. split; [reflexivity |]. split.
  - intros [| p] c' Hp; [reflexivity | exfalso]. cbn in Hp.
    apply list_elem_of_lookup_2 in Hp.
    apply list_elem_of_In, in_app_or in Hp. unfold final_matchers in Hp.
    revert Hp.
    destruct (LocalDomain Opts), (RemoteDomain Opts); cbn; intuition discriminate.
  - intros Q R ServeDNS q. split; reflexivity.
Qed.

(** C8. [splitArgs s] parses [s] itself when it contains "://" and
    "udp://" followed by [s] when it does not, so that an address without
    "://" gives what the same address under the scheme udp gives.  When
    that parses to a URL [u], the address returned is the rendering of the
    URL that has every field of [u] but an empty query, and [socks5] and
    [netAddr] are the first value the parsed query of [u] has under
    "socks5" and under "netaddr", the empty string when it has none. *)
Theorem splitArgs_parts (s : string) (u : url.URL) :
  url_Parse (if Contains s "://" then s else "udp://" +:+ s) = inr u ->
  splitArgs s =
    inr (url_String
           (url.mkURL (url.Scheme u) (url.Opaque u) (url.User u) (url.Host u)
              (url.Path u) (url.ForceQuery u) "" (url.Fragment u)),
         match url_ParseQuery (url.RawQuery u) !! "socks5" with
         | Some (x :: _) => x
         | _ => ""
         end,
         match url_ParseQuery (url.RawQuery u) !! "netaddr" with
         | Some (x :: _) => x
         | _ => ""
         end) /\
  (Contains s "://" = false -> splitArgs s = splitArgs ("udp://" +:+ s)).
Proof.
  intros Hu. split.
  - unfold splitArgs. destruct (Contains s "://"); cbn [negb]; rewrite Hu; reflexivity.
  - intros Hno. unfold splitArgs at 2.
    rewrite Contains_udp_prefix. cbn [negb].
    unfold splitArgs. rewrite Hno. reflexivity.
Qed.

(** C9. On every run that reaches the servers, an empty local-domain list
    leaves the handler's local-domain matcher nil and an empty
    remote-domain list leaves its remote-domain matcher nil (a list with
    files in it gives a matcher); with both lists empty no mix matcher
    object exists at all. *)
Theorem empty_domain_list_no_matcher (Opts : Options) (w : World) :
  run Opts init_world = Running tt w ->
  exists c, handler_of w = Some c /\
    (LocalDomain Opts = [] <-> localDomain c = None) /\
    (RemoteDomain Opts = [] <-> remoteDomain c = None) /\
    (LocalDomain Opts = [] -> RemoteDomain Opts = [] ->
     forall p m, heap w !! p <> Some (ObjMixMatcher m)).
Proof.
  intros Hrun.
  destruct (run_running _ _ Hrun) as (lus & rus & lm & rm & l & logs & -> & _).
  eexists. split; [reflexivity |].
  cbn [localDomain remoteDomain final_handler heap]. unfold final_matchers.
  split; [| split].
  - destruct (LocalDomain Opts); cbn; split; intros H;
      first [reflexivity | discriminate H].
  - destruct (RemoteDomain Opts); cbn; split; intros H;
      first [reflexivity | discriminate H].
  - intros -> -> p m. cbn. destruct p as [| [| p]]; cbn;
      [discriminate | discriminate | destruct p; discriminate].
Qed.

(** The default of [LocalLatency]. *)
Lemma flags_Parse_default_latency (cmdline : list Flag) (Opts : Options) :
  (forall v, flag_local_latency v ∉ cmdline) ->
  flags_Parse cmdline = inr Opts ->
  LocalLatency Opts = 50.
Proof.
  intros Hno Hparse.
  assert (Hset : isSet opt_local_latency cmdline = false).
  { unfold isSet. apply not_true_is_false. intros Hex.
    apply existsb_exists in Hex as [f [Hin Hf]].
    destruct f; try discriminate Hf.
    apply (Hno v). apply list_elem_of_In. exact Hin. }
  unfold flags_Parse in Hparse.
  destruct (set_flags zero_Options cmdline) as [err | o]; [discriminate |].
  destruct (required_set cmdline); [| discriminate].
  injection Hparse as <-. unfold apply_defaults. rewrite Hset. reflexivity.
Qed.

(** C10. Started from a command line without the local-latency option,
    a run that reaches the servers has a handler whose [localLatency] is
    50 milliseconds. *)
Theorem default_local_latency (cmdline : list Flag) (w : World) :
  (forall v, flag_local_latency v ∉ cmdline) ->
  main cmdline = Running tt w ->
  exists c, handler_of w = Some c /\ localLatency c = 50 * Millisecond.
Proof.
  intros Hno Hmain. unfold main in Hmain.
  destruct (flags_Parse cmdline) as [err | Opts] eqn:Hparse; [discriminate |].
  destruct (run_local_latency Opts w Hmain) as [c [Hc Hl]].
  exists c. split; [exact Hc |].
  rewrite Hl, (flags_Parse_default_latency _ _ Hno Hparse). reflexivity.
Qed.

End StartupFacts.

(** * The claims on the test double *)

#[local] Existing Instance Fixture.ext.

Lemma first_upstream_trusted_witness :
  run Fixture.opts_full init_world = Running tt Fixture.w_full /\
  exists c, handler_of Fixture.w_full = Some c /\
    (length (localUpstream c) = length (LocalUpstream Fixture.opts_full) /\
     forall i u, localUpstream c !! i = Some u ->
       (trusted u = true <-> i = 0%nat) /\
       exists s addr socks5 netAddr,
         LocalUpstream Fixture.opts_full !! i = Some s /\
         splitArgs s = inr (addr, socks5, netAddr) /\
         NewFastUpstream addr socks5 netAddr = inr (wrapped u)) /\
    (length (remoteUpstream c) = length (RemoteUpstream Fixture.opts_full) /\
     forall i u, remoteUpstream c !! i = Some u ->
       (trusted u = true <-> i = 0%nat) /\
       exists s addr socks5 netAddr,
         RemoteUpstream Fixture.opts_full !! i = Some s /\
         splitArgs s = inr (addr, socks5, netAddr) /\
         NewFastUpstream addr socks5 netAddr = inr (wrapped u)).
Proof.
  split; [vm_compute; reflexivity |].
  apply (first_upstream_trusted Fixture.opts_full Fixture.w_full).
  vm_compute; reflexivity.
Defined.

Lemma cache_disabled_iff_small_witness :
  run Fixture.opts_min init_world = Running tt Fixture.w_min /\
  exists c, handler_of Fixture.w_min = Some c /\
    (cache c = None <-> CacheSize Fixture.opts_min <= 8) /\
    (8 < CacheSize Fixture.opts_min -> exists mc, cache c = Some mc).
Proof.
  split; [vm_compute; reflexivity |].
  apply (cache_disabled_iff_small Fixture.opts_min Fixture.w_min).
  vm_compute; reflexivity.
Defined.

Lemma cache_shards_witness :
  run Fixture.opts_full init_world = Running tt Fixture.w_full /\
  8 < CacheSize Fixture.opts_full /\
  exists c mc, handler_of Fixture.w_full = Some c /\ cache c = Some mc /\
    shardNum mc = 8 /\
    maxSizePerShard mc = CacheSize Fixture.opts_full / 8 /\
    shardNum mc * maxSizePerShard mc <= CacheSize Fixture.opts_full /\
    (CacheSize Fixture.opts_full mod 8 <> 0 ->
     shardNum mc * maxSizePerShard mc < CacheSize Fixture.opts_full).
Proof.
  split; [vm_compute; reflexivity |]. split; [reflexivity |].
  apply (cache_shards Fixture.opts_full Fixture.w_full).
  - vm_compute; reflexivity.
  - reflexivity.
Defined.

Lemma local_latency_milliseconds_witness :
  run (Fixture.opts_latency (-20)) init_world = Running tt (Fixture.w_latency (-20)) /\
  exists c, handler_of (Fixture.w_latency (-20)) = Some c /\
    localLatency c = wrap64 (LocalLatency (Fixture.opts_latency (-20)) * 1000000) /\
    (-9223372036854 <= LocalLatency (Fixture.opts_latency (-20)) <= 9223372036854 ->
     localLatency c = LocalLatency (Fixture.opts_latency (-20)) * Millisecond).
Proof.
  split; [vm_compute; reflexivity |].
  apply (local_latency_milliseconds (Fixture.opts_latency (-20)) (Fixture.w_latency (-20))).
  vm_compute; reflexivity.
Defined.

(** C4, as it is worded, fails: a local latency of 9223372036855 (a value
    of an [int], which go-flags accepts) is not stored as that many
    milliseconds; the product overflows and a negative duration is
    stored. *)
Lemma local_latency_overflows :
  exists w c,
    main (Fixture.cmdline_latency 9223372036855) = Running tt w /\
    handler_of w = Some c /\
    localLatency c = -9223372036854551616 /\
    localLatency c <> 9223372036855 * Millisecond.
Proof.
  exists (Fixture.w_latency 9223372036855). eexists.
  split; [vm_compute; reflexivity |].
  split; [vm_compute; reflexivity |].
  split; [vm_compute; reflexivity | vm_compute; discriminate].
Qed.

Lemma config_error_fatal_witness :
  config_error Fixture.opts_bad /\
  exists line, run Fixture.opts_bad init_world = Exited 1 (Some line).
Proof.
  assert (H : config_error Fixture.opts_bad).
  { left. exists "dns google". split.
    - apply list_elem_of_In. cbn. auto.
    - vm_compute. exact I. }
  split; [exact H | apply (config_error_fatal Fixture.opts_bad H)].
Defined.

Lemma local_ip_sorted_before_use_witness :
  (forall l : list Z, Sorted Z.le (merge_sort Z.le l)) /\
  run Fixture.opts_full init_world = Running tt Fixture.w_full /\
  exists c m l, handler_of Fixture.w_full = Some c /\ localIP c = Some m /\
    load_all netlist_LoadFromFile netlist_NewList (LocalIP Fixture.opts_full) = inr l /\
    ip_list_given m = netlist_Sort l /\
    heap Fixture.w_full !! ip_list m = Some (ObjNetList (netlist_Sort l)) /\
    Sorted Z.le (ip_list_given m) /\
    (forall l', heap Fixture.w_full !! ip_list m = Some (ObjNetList l') -> Sorted Z.le l').
Proof.
  split; [intros l; apply Sorted_merge_sort; apply _ |].
  split; [vm_compute; reflexivity |].
  apply (local_ip_sorted_before_use (Sorted Z.le) Fixture.opts_full Fixture.w_full).
  - intros l. apply Sorted_merge_sort. apply _.
  - vm_compute; reflexivity.
Defined.

Lemma two_listeners_one_handler_witness :
  run Fixture.opts_full init_world = Running tt Fixture.w_full /\
  exists h c,
    serving Fixture.w_full =
      [NewServer "udp" "127.0.0.1:53" h; NewServer "tcp" "127.0.0.1:53" h] /\
    heap Fixture.w_full !! h = Some (ObjHandler c) /\
    (forall p c', heap Fixture.w_full !! p = Some (ObjHandler c') -> p = h) /\
    forall (Q R : Type) (ServeDNS : cnHandler -> Q -> R) (q : Q),
      Server_serve ServeDNS Fixture.w_full (NewServer "udp" "127.0.0.1:53" h) q
        = Some (ServeDNS c q) /\
      Server_serve ServeDNS Fixture.w_full (NewServer "tcp" "127.0.0.1:53" h) q
        = Some (ServeDNS c q).
Proof.
  split; [vm_compute; reflexivity |].
  apply (two_listeners_one_handler Fixture.opts_full Fixture.w_full).
  vm_compute; reflexivity.
Defined.

Lemma splitArgs_parts_witness :
  url_Parse (if Contains "223.5.5.5?socks5=127.0.0.1:1080" "://"
             then "223.5.5.5?socks5=127.0.0.1:1080"
             else "udp://" +:+ "223.5.5.5?socks5=127.0.0.1:1080")
    = inr (url.mkURL "udp" "" "" "223.5.5.5" "" false "socks5=127.0.0.1:1080" "") /\
  splitArgs "223.5.5.5?socks5=127.0.0.1:1080" =
    inr ("udp://223.5.5.5", "127.0.0.1:1080", "") /\
  splitArgs "223.5.5.5?socks5=127.0.0.1:1080" =
    splitArgs "udp://223.5.5.5?socks5=127.0.0.1:1080".
Proof.
  assert (Hu : url_Parse (if Contains "223.5.5.5?socks5=127.0.0.1:1080" "://"
                          then "223.5.5.5?socks5=127.0.0.1:1080"
                          else "udp://" +:+ "223.5.5.5?socks5=127.0.0.1:1080")
               = inr (url.mkURL "udp" "" "" "223.5.5.5" "" false
                        "socks5=127.0.0.1:1080" ""))
    by (vm_compute; reflexivity).
  destruct (splitArgs_parts "223.5.5.5?socks5=127.0.0.1:1080" _ Hu) as [Hparts Hudp].
  split; [exact Hu |]. split.
  - rewrite Hparts. vm_compute. reflexivity.
  - apply Hudp. vm_compute. reflexivity.
Defined.

Lemma empty_domain_list_no_matcher_witness :
  run Fixture.opts_min init_world = Running tt Fixture.w_min /\
  exists c, handler_of Fixture.w_min = Some c /\
    (LocalDomain Fixture.opts_min = [] <-> localDomain c = None) /\
    (RemoteDomain Fixture.opts_min = [] <-> remoteDomain c = None) /\
    (LocalDomain Fixture.opts_min = [] -> RemoteDomain Fixture.opts_min = [] ->
     forall p m, heap Fixture.w_min !! p <> Some (ObjMixMatcher m)).
Proof.
  split; [vm_compute; reflexivity |].
  apply (empty_domain_list_no_matcher Fixture.opts_min Fixture.w_min).
  vm_compute; reflexivity.
Defined.

Lemma default_local_latency_witness :
  (forall v, flag_local_latency v ∉ Fixture.cmdline_min) /\
  main Fixture.cmdline_min = Running tt Fixture.w_min /\
  exists c, handler_of Fixture.w_min = Some c /\ localLatency c = 50 * Millisecond.
Proof.
  assert (H : forall v, flag_local_latency v ∉ Fixture.cmdline_min).
  { intros v Hin. apply list_elem_of_In in Hin. cbn in Hin. intuition discriminate. }
  split; [exact H |]. split; [vm_compute; reflexivity |].
  apply (default_local_latency Fixture.cmdline_min Fixture.w_min H).
  vm_compute; reflexivity.
Defined.

(** * More of [main.go] *)

Section MoreFacts.

Context {FastUpstream MixMatcher NetList : Type}.
Context `{Ext : External FastUpstream MixMatcher NetList}.

(** ** [strings.Contains] *)

Lemma HasPrefix_app (p rest : string) : HasPrefix (p +:+ rest) p = true.
Proof.
  induction p as [| a p IH]; [destruct rest; reflexivity |].
  change (String a p +:+ rest) with (String a (p +:+ rest)).
  cbn [HasPrefix]. rewrite Ascii.eqb_refl. exact IH.
Qed.

Lemma Contains_app (a sub b : string) : Contains (a +:+ sub +:+ b) sub = true.
Proof.
  induction a as [| c a IH].
  - change ("" +:+ sub +:+ b) with (sub +:+ b).
    destruct (sub +:+ b) eqn:E.
    + destruct sub; [reflexivity | discriminate E].
    + cbn [Contains]. rewrite <- E, HasPrefix_app. reflexivity.
  - change (String c a +:+ sub +:+ b) with (String c (a +:+ sub +:+ b)).
    cbn [Contains]. rewrite IH. apply orb_true_r.
Qed.

(** ** [splitArgs] *)

(** An address that names a scheme (has "://" somewhere in it) is parsed
    as it stands, whatever the scheme: nothing is put in front of it.
    When it parses to a URL [u], the address returned is the rendering of
    the URL that has every field of [u] but an empty query, and [socks5]
    and [netAddr] are the first value the parsed query of [u] has under
    "socks5" and under "netaddr", the empty string when it has none. *)
Theorem splitArgs_keeps_scheme (scheme rest : string) (u : url.URL) :
  url_Parse (scheme +:+ "://" +:+ rest) = inr u ->
  splitArgs (scheme +:+ "://" +:+ rest) =
    inr (url_String
           (url.mkURL (url.Scheme u) (url.Opaque u) (url.User u) (url.Host u)
              (url.Path u) (url.ForceQuery u) "" (url.Fragment u)),
         match url_ParseQuery (url.RawQuery u) !! "socks5" with
         | Some (x :: _) => x
         | _ => ""
         end,
         match url_ParseQuery (url.RawQuery u) !! "netaddr" with
         | Some (x :: _) => x
         | _ => ""
         end).
Proof.
  intros Hu. unfold splitArgs.
  rewrite (Contains_app scheme "://" rest). cbn [negb]. rewrite Hu. reflexivity.
Qed.

(** [splitArgs] fails exactly when [url.Parse] rejects the address it is
    given (with "udp://" in front when the address has no "://"), and the
    error it returns wraps the one of [url.Parse]. *)
Theorem splitArgs_error (s : string) (e : error) :
  splitArgs s = inl e <->
  exists e0,
    url_Parse (if Contains s "://" then s else "udp://" +:+ s) = inl e0 /\
    e = wrapError "invalid upstream address, %w" e0.
Proof.
  unfold splitArgs. destruct (Contains s "://"); cbn [negb].
  - destruct (url_Parse s) as [e0 | u]; split.
    + intros H. injection H as <-. exists e0. auto.
    + intros [e1 [H1 ->]]. injection H1 as ->. reflexivity.
    + discriminate.
    + intros [e1 [H1 _]]. discriminate H1.
  - destruct (url_Parse ("udp://" +:+ s)) as [e0 | u]; split.
    + intros H. injection H as <-. exists e0. auto.
    + intros [e1 [H1 ->]]. injection H1 as ->. reflexivity.
    + discriminate.
    + intros [e1 [H1 _]]. discriminate H1.
Qed.

(** ** The batch loaders *)


(** [batchLoadIPFile] on a pointer to a list: it returns nil exactly when
    every file loads, one after the other, and then the list holds them
    all; otherwise it returns the error of the first file that does not
    load.  Either way it touches nothing but that one list: the other
    objects, the log and the servers are as before. *)
Theorem batchLoadIPFile_effect (files : list string) :
  forall (w : @World FastUpstream MixMatcher NetList) (p : ptr) (nl : NetList),
    heap w !! p = Some (ObjNetList nl) ->
    exists w',
      batchLoadIPFile p files w =
        Running (match load_all netlist_LoadFromFile nl files with
                 | inl e => Some e
                 | inr _ => None
                 end) w' /\
      level w' = level w /\ logged w' = logged w /\ serving w' = serving w /\
      length (heap w') = length (heap w) /\
      (forall q, q <> p -> heap w' !! q = heap w !! q) /\
      (forall nl', load_all netlist_LoadFromFile nl files = inr nl' ->
                   heap w' !! p = Some (ObjNetList nl')).
Proof.
  induction files as [| f files IH]; intros w p nl Hp.
  - exists w. cbn. unfold ret. repeat split; try reflexivity.
    intros nl' H. injection H as <-. exact Hp.
  - cbn [batchLoadIPFile load_all].
    assert (Hg : get_netlist p w = Running nl w).
    { unfold get_netlist. rewrite Hp. reflexivity. }
    rewrite (bind_Running _ _ _ _ _ Hg).
    destruct (netlist_LoadFromFile nl f) as [err | nl1].
    + exists w. unfold ret. repeat split; try reflexivity. discriminate.
    + rewrite (bind_Running _ _ _ _ _ (put_at _ _ _ (ObjNetList nl1) Hp)).
      set (w1 := with_heap w (<[p := ObjNetList nl1]> (heap w))).
      assert (Hp1 : heap w1 !! p = Some (ObjNetList nl1)).
      { cbn. apply list_lookup_insert_eq. eapply lookup_lt_Some, Hp. }
      destruct (IH w1 p nl1 Hp1) as (w' & Hrun & Hlv & Hlg & Hsv & Hlen & Hfr & Hct).
      exists w'. split; [exact Hrun |].
      split; [exact Hlv |]. split; [exact Hlg |]. split; [exact Hsv |].
      split; [| split].
      * rewrite Hlen. cbn. apply length_insert.
      * intros q Hq. rewrite (Hfr q Hq). cbn.
        apply list_lookup_insert_ne. congruence.
      * exact Hct.
Qed.

(** The same for [batchLoadDomainFile] and the mix matcher it loads into. *)
Theorem batchLoadDomainFile_effect (files : list string) :
  forall (w : @World FastUpstream MixMatcher NetList) (m : ptr) (mm : MixMatcher),
    heap w !! m = Some (ObjMixMatcher mm) ->
    exists w',
      batchLoadDomainFile m files w =
        Running (match load_all domain_LoadFromFile mm files with
                 | inl e => Some e
                 | inr _ => None
                 end) w' /\
      level w' = level w /\ logged w' = logged w /\ serving w' = serving w /\
      length (heap w') = length (heap w) /\
      (forall q, q <> m -> heap w' !! q = heap w !! q) /\
      (forall mm', load_all domain_LoadFromFile mm files = inr mm' ->
                   heap w' !! m = Some (ObjMixMatcher mm')).
Proof.
  induction files as [| f files IH]; intros w m mm Hm.
  - exists w. cbn. unfold ret. repeat split; try reflexivity.
    intros mm' H. injection H as <-. exact Hm.
  - cbn [batchLoadDomainFile load_all].
    assert (Hg : get_matcher m w = Running mm w).
    { unfold get_matcher. rewrite Hm. reflexivity. }
    rewrite (bind_Running _ _ _ _ _ Hg).
    destruct (domain_LoadFromFile mm f) as [err | mm1].
    + exists w. unfold ret. repeat split; try reflexivity. discriminate.
    + rewrite (bind_Running _ _ _ _ _ (put_at _ _ _ (ObjMixMatcher mm1) Hm)).
      set (w1 := with_heap w (<[m := ObjMixMatcher mm1]> (heap w))).
      assert (Hm1 : heap w1 !! m = Some (ObjMixMatcher mm1)).
      { cbn. apply list_lookup_insert_eq. eapply lookup_lt_Some, Hm. }
      destruct (IH w1 m mm1 Hm1) as (w' & Hrun & Hlv & Hlg & Hsv & Hlen & Hfr & Hct).
      exists w'. split; [exact Hrun |].
      split; [exact Hlv |]. split; [exact Hlg |]. split; [exact Hsv |].
      split; [| split].
      * rewrite Hlen. cbn. apply length_insert.
      * intros q Hq. rewrite (Hfr q Hq). cbn.
        apply list_lookup_insert_ne. congruence.
      * exact Hct.
Qed.


(** Loading one list of files after another is loading the two lists put
    together, as long as the first load returns nil; its error ends
    both. *)
Theorem batch_load_app (p : ptr) (files1 files2 : list string)
    (w : @World FastUpstream MixMatcher NetList) :
  batchLoadIPFile p (files1 ++ files2) w =
    bind (batchLoadIPFile p files1)
      (fun err => match err with
                  | Some e => ret (Some e)
                  | None => batchLoadIPFile p files2
                  end) w /\
  batchLoadDomainFile p (files1 ++ files2) w =
    bind (batchLoadDomainFile p files1)
      (fun err => match err with
                  | Some e => ret (Some e)
                  | None => batchLoadDomainFile p files2
                  end) w.
Proof.
  split.
  - revert w. induction files1 as [| f files1 IH]; intros w; [reflexivity |].
    cbn [app batchLoadIPFile]. unfold bind, get_netlist, put, ret in IH |- *.
    destruct (heap w !! p) as [[c | mm | nl] |] eqn:E; try reflexivity.
    destruct (netlist_LoadFromFile nl f) as [err | nl1]; [reflexivity |].
    cbv beta. rewrite E. apply IH.
  - revert w. induction files1 as [| f files1 IH]; intros w; [reflexivity |].
    cbn [app batchLoadDomainFile]. unfold bind, get_matcher, put, ret in IH |- *.
    destruct (heap w !! p) as [[c | mm | nl] |] eqn:E; try reflexivity.
    destruct (domain_LoadFromFile mm f) as [err | mm1]; [reflexivity |].
    cbv beta. rewrite E. apply IH.
Qed.

(** ** Where a start-up ends *)

Lemma upstream_loop_first_failure (h : ptr) (which : string)
    (field : @cnHandler FastUpstream NetList -> list (@upstreamWrapper FastUpstream))
    (set_field : list (@upstreamWrapper FastUpstream) ->
                 @cnHandler FastUpstream NetList -> @cnHandler FastUpstream NetList)
    (good rest : list string) (s : string) :
  Forall (fun g => ~ upstream_entry_fails g) good ->
  forall (i : nat) (w : @World FastUpstream MixMatcher NetList) (c : cnHandler),
    heap w !! h = Some (ObjHandler c) ->
    (forall err, splitArgs s = inl err ->
       forRange (upstream_body h which field set_field) i (good ++ s :: rest) w =
       Exited 1 (Some (mkLogLine ("Failed to parse " +:+ which +:+ " upstream #%d: %v")
                         [AInt (Z.of_nat (i + length good)); AErr err]))) /\
    (forall addr socks5 netAddr err,
       splitArgs s = inr (addr, socks5, netAddr) ->
       NewFastUpstream addr socks5 netAddr = inl err ->
       forRange (upstream_body h which field set_field) i (good ++ s :: rest) w =
       Exited 1 (Some (mkLogLine ("Failed to load " +:+ which +:+ " upstream #%d: %v")
                         [AInt (Z.of_nat (i + length good)); AErr err]))).
Proof.
  induction 1 as [| g good Hg Hgood IH]; intros i w c Hh.
  - cbn [app length forRange]. rewrite Nat.add_0_r. split.
    + intros err Hs. apply bind_Exited. unfold upstream_body. rewrite Hs. reflexivity.
    + intros addr socks5 netAddr err Hs Hn. apply bind_Exited.
      unfold upstream_body. rewrite Hs, Hn. reflexivity.
  - cbn [app length forRange].
    destruct (upstream_body_cases h which field set_field i g w c Hh)
      as [[Hbad _] | [u [_ Hrun]]]; [contradiction |].
    rewrite (bind_Running _ _ _ _ _ Hrun).
    replace (i + S (length good))%nat with (S i + length good)%nat by lia.
    eapply IH. cbn. apply list_lookup_insert_eq. eapply lookup_lt_Some, Hh.
Qed.

Lemma domain_block_fatal (h : ptr) (Which which : string) (files : list string)
    (set_field : option QNameMatcher ->
                 @cnHandler FastUpstream NetList -> @cnHandler FastUpstream NetList)
    (w : @World FastUpstream MixMatcher NetList) (e : error) :
  load_all domain_LoadFromFile NewMixMatcher files = inl e ->
  domain_block h Which which files set_field w =
  Exited 1 (Some (mkLogLine ("Failed to load " +:+ which +:+ " domain: %v") [AErr e])).
Proof.
  intros Hload. unfold domain_block.
  destruct files as [| f files]; [discriminate Hload |].
  change (0 <? length (f :: files))%nat with true. cbv iota.
  set (w1 := with_heap w (heap w ++ [ObjMixMatcher NewMixMatcher])).
  assert (Ha : alloc (ObjMixMatcher NewMixMatcher) w = Running (length (heap w)) w1)
    by reflexivity.
  rewrite (bind_Running _ _ _ _ _ Ha).
  assert (Hm : heap w1 !! length (heap w) = Some (ObjMixMatcher NewMixMatcher)).
  { cbn. apply list_lookup_middle. reflexivity. }
  pose proof (batchLoadDomainFile_at (f :: files) w1 _ _ Hm) as H.
  rewrite Hload in H. destruct H as [w' Hrun].
  rewrite (bind_Running _ _ _ _ _ Hrun). reflexivity.
Qed.

Lemma run_walk (Opts : Options) :
  let lvl := if Debug Opts then DebugLevel else InfoLevel in
  let oc := if 8 <? CacheSize Opts
            then Some (NewMemCache 8 (int_div (CacheSize Opts) 8) Minute) else None in
  (exists line,
     forRange (upstream_body 0%nat "local" localUpstream set_localUpstream) 0
       (LocalUpstream Opts)
       (@mkWorld FastUpstream MixMatcher NetList lvl []
          [ObjHandler (mkHandler oc [] [] None None None 0)] [])
     = Exited 1 (Some line) /\
     run Opts init_world = Exited 1 (Some line)) \/
  (exists lus,
     (Forall2 (fun _ _ => True) (LocalUpstream Opts) lus /\
      forall k s u, LocalUpstream Opts !! k = Some s -> lus !! k = Some u -> built k s u) /\
     ((exists line,
         forRange (upstream_body 0%nat "remote" remoteUpstream set_remoteUpstream) 0
           (RemoteUpstream Opts)
           (@mkWorld FastUpstream MixMatcher NetList lvl []
              [ObjHandler (mkHandler oc lus [] None None None 0)] [])
         = Exited 1 (Some line) /\
         run Opts init_world = Exited 1 (Some line)) \/
      (exists rus,
         (Forall2 (fun _ _ => True) (RemoteUpstream Opts) rus /\
          forall k s u,
            RemoteUpstream Opts !! k = Some s -> rus !! k = Some u -> built k s u) /\
         match load_all domain_LoadFromFile NewMixMatcher (LocalDomain Opts) with
         | inl e =>
             run Opts init_world =
             Exited 1 (Some (mkLogLine "Failed to load local domain: %v" [AErr e]))
         | inr lm =>
             match load_all domain_LoadFromFile NewMixMatcher (RemoteDomain Opts) with
             | inl e =>
                 run Opts init_world =
                 Exited 1 (Some (mkLogLine "Failed to load remote domain: %v" [AErr e]))
             | inr rm =>
                 match load_all netlist_LoadFromFile netlist_NewList (LocalIP Opts) with
                 | inl e =>
                     run Opts init_world =
                     Exited 1 (Some (mkLogLine "Failed to load local ip: %v" [AErr e]))
                 | inr l =>
                     run Opts init_world =
                     Running tt
                       (mkWorld lvl (final_log Opts lm rm l)
                          (ObjHandler
                             (final_handler Opts lus rus
                                (S (length (@final_matchers FastUpstream MixMatcher NetList
                                              Opts lm rm)))
                                (netlist_Sort l))
                           :: final_matchers Opts lm rm ++ [ObjNetList (netlist_Sort l)])
                          [NewServer "udp" (ServerAddr Opts) 0;
                           NewServer "tcp" (ServerAddr Opts) 0])
                 end
             end
         end))).
Proof.
  cbv zeta. unfold run.
  set (lvl := if Debug Opts then DebugLevel else InfoLevel).
  (* the log level *)
  assert (HA : (if Debug Opts then SetLevel DebugLevel else SetLevel InfoLevel)
                 (@init_world FastUpstream MixMatcher NetList)
               = Running tt (@mkWorld FastUpstream MixMatcher NetList lvl [] [] [])).
  { subst lvl. destruct (Debug Opts); reflexivity. }
  rewrite (bind_Running _ _ _ _ _ HA). clear HA.
  (* the handler *)
  erewrite bind_Running by reflexivity. cbn [length heap].
  (* the cache *)
  set (oc := if 8 <? CacheSize Opts
             then Some (NewMemCache 8 (int_div (CacheSize Opts) 8) Minute) else None).
  set (c1 := @mkHandler FastUpstream NetList oc [] [] None None None 0).
  assert (HC : (if 8 <? CacheSize Opts
                then assign 0%nat (set_cache
                       (Some (NewMemCache 8 (int_div (CacheSize Opts) 8) Minute)))
                else ret tt)
                 (with_heap (@mkWorld FastUpstream MixMatcher NetList lvl [] [] []) ([] ++ [ObjHandler zero_cnHandler]))
               = Running tt (@mkWorld FastUpstream MixMatcher NetList lvl [] [ObjHandler c1] [])).
  { subst c1 oc. destruct (8 <? CacheSize Opts); reflexivity. }
  rewrite (bind_Running _ _ _ _ _ HC). clear HC.
  (* the local upstreams *)
  destruct (upstream_loop_cases 0%nat "local" localUpstream set_localUpstream
              (fun _ _ => eq_refl) (fun _ _ _ => eq_refl)
              (fun c => match c with mkHandler _ _ _ _ _ _ _ => eq_refl end)
              (LocalUpstream Opts) 0%nat (@mkWorld FastUpstream MixMatcher NetList lvl [] [ObjHandler c1] []) c1 eq_refl)
    as [[_ [line HD]] | [lus [HlusL [Hlus HD]]]].
  { left. exists line. split; [exact HD |].
    rewrite (bind_Exited _ _ _ _ _ HD). reflexivity. }
  right. exists lus. split; [split; assumption |].
  rewrite (bind_Running _ _ _ _ _ HD). clear HD.
  cbn [with_heap heap level logged serving insert list_insert localUpstream c1 app
       set_localUpstream cache remoteUpstream localDomain remoteDomain localIP
       localLatency].
  set (c2 := @mkHandler FastUpstream NetList oc lus [] None None None 0).
  (* the remote upstreams *)
  destruct (upstream_loop_cases 0%nat "remote" remoteUpstream set_remoteUpstream
              (fun _ _ => eq_refl) (fun _ _ _ => eq_refl)
              (fun c => match c with mkHandler _ _ _ _ _ _ _ => eq_refl end)
              (RemoteUpstream Opts) 0%nat (@mkWorld FastUpstream MixMatcher NetList lvl [] [ObjHandler c2] []) c2 eq_refl)
    as [[_ [line HE]] | [rus [HrusL [Hrus HE]]]].
  { left. exists line. split; [exact HE |].
    rewrite (bind_Exited _ _ _ _ _ HE). reflexivity. }
  right. exists rus. split; [split; assumption |].
  rewrite (bind_Running _ _ _ _ _ HE). clear HE.
  cbn [with_heap heap level logged serving insert list_insert remoteUpstream c2 app
       set_remoteUpstream cache localUpstream localDomain remoteDomain localIP
       localLatency].
  set (c3 := @mkHandler FastUpstream NetList oc lus rus None None None 0).
  (* the local domains *)
  pose proof (domain_block_cases 0%nat "Local" "local" (LocalDomain Opts) set_localDomain
                (@mkWorld FastUpstream MixMatcher NetList lvl [] [ObjHandler c3] []) c3 eq_refl) as HF.
  destruct (load_all domain_LoadFromFile NewMixMatcher (LocalDomain Opts))
    as [err | lm] eqn:HlL.
  { rewrite (bind_Exited _ _ _ _ _
               (domain_block_fatal 0%nat "Local" "local" _ set_localDomain _ err HlL)).
    reflexivity. }
  set (bl := (0 <? length (LocalDomain Opts))%nat) in *.
  set (c4 := @mkHandler FastUpstream NetList oc lus rus (if bl then Some (NewQNameMatcher 1) else None)
               None None 0).
  set (restL := if bl then [@ObjMixMatcher FastUpstream MixMatcher NetList lm] else []).
  set (logsF := if bl
                then [mkLogLine "Local domain matcher loaded, length: %d"
                        [AInt (MixMatcher_Len lm)]]
                else []).
  assert (HF' : domain_block 0%nat "Local" "local" (LocalDomain Opts) set_localDomain
                  (@mkWorld FastUpstream MixMatcher NetList lvl [] [ObjHandler c3] [])
                = Running tt (@mkWorld FastUpstream MixMatcher NetList lvl logsF
                                (ObjHandler c4 :: restL) [])).
  { rewrite HF. subst c4 restL logsF. destruct bl; reflexivity. }
  clear HF. rename HF' into HF.
  rewrite (bind_Running _ _ _ _ _ HF). clear HF.
  (* the remote domains *)
  pose proof (domain_block_cases 0%nat "Remote" "remote" (RemoteDomain Opts) set_remoteDomain
                (@mkWorld FastUpstream MixMatcher NetList lvl logsF (ObjHandler c4 :: restL) []) c4 eq_refl) as HG.
  destruct (load_all domain_LoadFromFile NewMixMatcher (RemoteDomain Opts))
    as [err | rm] eqn:HlR.
  { rewrite (bind_Exited _ _ _ _ _
               (domain_block_fatal 0%nat "Remote" "remote" _ set_remoteDomain _ err HlR)).
    reflexivity. }
  set (br := (0 <? length (RemoteDomain Opts))%nat) in *.
  set (c5 := @mkHandler FastUpstream NetList oc lus rus (if bl then Some (NewQNameMatcher 1) else None)
               (if br then Some (NewQNameMatcher (if bl then 2 else 1)%nat) else None)
               None 0).
  set (rest := restL ++ (if br then [ObjMixMatcher rm] else [])).
  set (logsG := logsF ++
                 (if br
                  then [mkLogLine "Remote domain matcher loaded, length: %d"
                          [AInt (MixMatcher_Len rm)]]
                  else [])).
  assert (HG' : domain_block 0%nat "Remote" "remote" (RemoteDomain Opts) set_remoteDomain
                  (@mkWorld FastUpstream MixMatcher NetList lvl logsF
                     (ObjHandler c4 :: restL) [])
                = Running tt (@mkWorld FastUpstream MixMatcher NetList lvl logsG
                                (ObjHandler c5 :: rest) [])).
  { rewrite HG. subst c5 rest restL c4 logsG logsF. destruct br, bl; reflexivity. }
  clear HG. rename HG' into HG.
  rewrite (bind_Running _ _ _ _ _ HG). clear HG.
  (* the address list *)
  erewrite bind_Running by reflexivity.
  cbn [with_heap heap level logged serving length].
  change ((ObjHandler c5 :: rest) ++ [ObjNetList netlist_NewList])
    with (ObjHandler c5 :: rest ++ [ObjNetList netlist_NewList]).
  set (wH := mkWorld lvl logsG (ObjHandler c5 :: rest ++ [ObjNetList netlist_NewList]) []).
  assert (Hnl : heap wH !! S (length rest) = Some (ObjNetList netlist_NewList)).
  { apply lookup_S_last. }
  pose proof (batchLoadIPFile_at (LocalIP Opts) wH _ _ Hnl) as HI.
  destruct (load_all netlist_LoadFromFile netlist_NewList (LocalIP Opts)) as [err | l].
  { destruct HI as [w' HI].
    rewrite (bind_Running _ _ _ _ _ HI). reflexivity. }
  rewrite (bind_Running _ _ _ _ _ HI). clear HI.
  cbn [with_heap heap level logged serving wH].
  rewrite insert_S_last.
  (* sorting, wrapping, the latency and the servers *)
  set (w1 := mkWorld lvl logsG (ObjHandler c5 :: rest ++ [ObjNetList l]) []).
  assert (H1 : get_netlist (S (length rest)) w1 = Running l w1).
  { unfold get_netlist. cbn [heap w1]. rewrite lookup_S_last. reflexivity. }
  rewrite (bind_Running _ _ _ _ _ H1).
  assert (H2 : put (S (length rest)) (ObjNetList (netlist_Sort l)) w1
               = Running tt (@mkWorld FastUpstream MixMatcher NetList lvl logsG
                               (ObjHandler c5 :: rest ++ [ObjNetList (netlist_Sort l)]) [])).
  { unfold put. cbn [heap w1]. rewrite lookup_S_last.
    unfold with_heap. cbn [heap level logged serving].
    rewrite insert_S_last. reflexivity. }
  rewrite (bind_Running _ _ _ _ _ H2). clear H1 H2 w1.
  set (w2 := mkWorld lvl logsG (ObjHandler c5 :: rest ++ [ObjNetList (netlist_Sort l)]) []).
  assert (H3 : get_netlist (S (length rest)) w2 = Running (netlist_Sort l) w2).
  { unfold get_netlist. cbn [heap w2]. rewrite lookup_S_last. reflexivity. }
  rewrite (bind_Running _ _ _ _ _ H3).
  erewrite bind_Running by reflexivity.
  assert (H4 : NewAAAAAIPMatcher (S (length rest))
                 (mkWorld (level w2)
                    (logged w2 ++ [mkLogLine "Local IP matcher loaded, length: %d"
                                     [AInt (netlist_Len (netlist_Sort l))]])
                    (heap w2) (serving w2))
               = Running (mkAAAAAIPMatcher (S (length rest)) (netlist_Sort l))
                   (mkWorld (level w2)
                      (logged w2 ++ [mkLogLine "Local IP matcher loaded, length: %d"
                                       [AInt (netlist_Len (netlist_Sort l))]])
                      (heap w2) (serving w2))).
  { unfold NewAAAAAIPMatcher. erewrite bind_Running; [reflexivity |].
    unfold get_netlist. cbn [heap w2]. rewrite lookup_S_last. reflexivity. }
  rewrite (bind_Running _ _ _ _ _ H4). clear H3 H4.
  reflexivity.
Qed.



Lemma upstream_loop_exit_cause (h : ptr) (which : string)
    (field : @cnHandler FastUpstream NetList -> list (@upstreamWrapper FastUpstream))
    (set_field : list (@upstreamWrapper FastUpstream) ->
                 @cnHandler FastUpstream NetList -> @cnHandler FastUpstream NetList)
    (l : list string) :
  forall (i : nat) (w : @World FastUpstream MixMatcher NetList) (c : cnHandler)
         (code : Z) (line : option LogLine),
    heap w !! h = Some (ObjHandler c) ->
    forRange (upstream_body h which field set_field) i l w = Exited code line ->
    exists s, s ∈ l /\ upstream_entry_fails s.
Proof.
  induction l as [| s l IH]; intros i w c code line Hh Hex.
  - discriminate Hex.
  - cbn [forRange] in Hex.
    destruct (upstream_body_cases h which field set_field i s w c Hh)
      as [[Hbad _] | [u [_ Hrun]]].
    + exists s. split; [apply list_elem_of_here | exact Hbad].
    + rewrite (bind_Running _ _ _ _ _ Hrun) in Hex.
      assert (Hh1 : heap (with_heap w (<[h := ObjHandler (set_field (field c ++ [u]) c)]>
                                         (heap w))) !! h
                    = Some (ObjHandler (set_field (field c ++ [u]) c))).
      { cbn. apply list_lookup_insert_eq. eapply lookup_lt_Some, Hh. }
      destruct (IH (S i) _ _ code line Hh1 Hex) as [s' [Hin Hbad]].
      exists s'. split; [apply list_elem_of_further, Hin | exact Hbad].
Qed.

Lemma built_not_fails (entries : list string) (us : list upstreamWrapper) (s : string) :
  Forall2 (fun _ _ => True) entries us ->
  (forall k s u, entries !! k = Some s -> us !! k = Some u -> built k s u) ->
  s ∈ entries -> ~ upstream_entry_fails s.
Proof.
  intros H1 H2 Hin Hbad.
  apply list_elem_of_lookup in Hin as [k Hk].
  destruct (Forall2_lookup_l _ _ _ _ _ H1 Hk) as [u [Hu _]].
  destruct (H2 k s u Hk Hu) as [_ (addr & socks5 & netAddr & Hsplit & Hnew)].
  unfold upstream_entry_fails in Hbad. rewrite Hsplit, Hnew in Hbad. exact Hbad.
Qed.

(** [run] never panics: the handler, the mix matchers and the address
    list are all there when it reads or writes through their pointers,
    whatever the options.  It ends in [Fatalf] (a fatal line, then status
    1) or it reaches the servers. *)
Theorem run_never_panics (Opts : Options) :
  run Opts init_world <> Panicked /\
  ((exists line, run Opts init_world = Exited 1 (Some line)) \/
   (exists w, run Opts init_world = Running tt w)).
Proof.
  destruct (run_cases Opts) as [[line Hex] | (lus & rus & lm & rm & l & logs & Hw & _)].
  - split; [rewrite Hex; discriminate |]. left. exists line. exact Hex.
  - split; [rewrite Hw; discriminate |]. right. eexists. exact Hw.
Qed.

(** With every upstream entry good, what is left to go wrong is the
    files, in this order: the local domain files, the remote domain files,
    the address files.  The first list that does not load ends the
    start-up with its own fatal line, carrying the loader's error; when
    all three load, the servers are reached. *)
Theorem file_failure_reported (Opts : Options) :
  (forall s, s ∈ LocalUpstream Opts ++ RemoteUpstream Opts -> ~ upstream_entry_fails s) ->
  match load_all domain_LoadFromFile NewMixMatcher (LocalDomain Opts) with
  | inl e =>
      run Opts init_world =
      Exited 1 (Some (mkLogLine "Failed to load local domain: %v" [AErr e]))
  | inr _ =>
      match load_all domain_LoadFromFile NewMixMatcher (RemoteDomain Opts) with
      | inl e =>
          run Opts init_world =
          Exited 1 (Some (mkLogLine "Failed to load remote domain: %v" [AErr e]))
      | inr _ =>
          match load_all netlist_LoadFromFile netlist_NewList (LocalIP Opts) with
          | inl e =>
              run Opts init_world =
              Exited 1 (Some (mkLogLine "Failed to load local ip: %v" [AErr e]))
          | inr _ => exists w, run Opts init_world = Running tt w
          end
      end
  end.
Proof.
  intros Hgood.
  pose proof (run_walk Opts) as H. cbv zeta in H.
  destruct H as [[line [HL _]] | [lus [_ [[line [HR _]] | [rus [_ H]]]]]].
  - eapply upstream_loop_exit_cause in HL as [s [Hin Hbad]]; [| reflexivity].
    exfalso. apply (Hgood s); [apply elem_of_app; left; exact Hin | exact Hbad].
  - eapply upstream_loop_exit_cause in HR as [s [Hin Hbad]]; [| reflexivity].
    exfalso. apply (Hgood s); [apply elem_of_app; right; exact Hin | exact Hbad].
  - destruct (load_all domain_LoadFromFile NewMixMatcher (LocalDomain Opts)); [exact H |].
    destruct (load_all domain_LoadFromFile NewMixMatcher (RemoteDomain Opts)); [exact H |].
    destruct (load_all netlist_LoadFromFile netlist_NewList (LocalIP Opts)); [exact H |].
    eexists. exact H.
Qed.


Lemma fails_cases (s : string) :
  upstream_entry_fails s ->
  (exists err, splitArgs s = inl err) \/
  (exists addr socks5 netAddr err,
     splitArgs s = inr (addr, socks5, netAddr) /\
     NewFastUpstream addr socks5 netAddr = inl err).
Proof.
  unfold upstream_entry_fails.
  destruct (splitArgs s) as [err | [[addr socks5] netAddr]].
  - intros _. left. exists err. reflexivity.
  - destruct (NewFastUpstream addr socks5 netAddr) as [err | fu] eqn:Hn; [| contradiction].
    intros _. right. exists addr, socks5, netAddr, err. auto.
Qed.

(** The first local upstream that cannot be used ends the start-up, and
    the fatal line names it by its index in [Opts.LocalUpstream]: with the
    error of [splitArgs] when the address does not parse, with the error
    of [NewFastUpstream] otherwise.  Nothing later in the configuration
    matters. *)
Theorem local_upstream_failure_reported (Opts : Options)
    (good rest : list string) (s : string) :
  LocalUpstream Opts = good ++ s :: rest ->
  Forall (fun g => ~ upstream_entry_fails g) good ->
  upstream_entry_fails s ->
  exists fmt err,
    run Opts init_world =
      Exited 1 (Some (mkLogLine fmt [AInt (Z.of_nat (length good)); AErr err])) /\
    ((splitArgs s = inl err /\ fmt = "Failed to parse local upstream #%d: %v") \/
     (exists addr socks5 netAddr,
        splitArgs s = inr (addr, socks5, netAddr) /\
        NewFastUpstream addr socks5 netAddr = inl err /\
        fmt = "Failed to load local upstream #%d: %v")).
Proof.
  intros Hl Hgood Hbad.
  pose proof (run_walk Opts) as H. cbv zeta in H.
  destruct H as [[line [HL Hrun]] | [lus [[HF Hb] _]]].
  - rewrite Hl in HL.
    match type of HL with
    | forRange _ _ _ ?w0 = _ =>
        destruct (upstream_loop_first_failure 0%nat "local" localUpstream set_localUpstream
                    good rest s Hgood 0%nat w0 _ eq_refl) as [Hparse Hload]
    end.
    destruct (fails_cases s Hbad) as [[err Hs] | (addr & socks5 & netAddr & err & Hs & Hn)].
    + rewrite (Hparse err Hs) in HL. injection HL as <-.
      eexists. exists err. split; [exact Hrun |]. left. split; [exact Hs | reflexivity].
    + rewrite (Hload addr socks5 netAddr err Hs Hn) in HL. injection HL as <-.
      eexists. exists err. split; [exact Hrun |]. right.
      exists addr, socks5, netAddr. split; [exact Hs |]. split; [exact Hn | reflexivity].
  - exfalso. apply (built_not_fails _ _ s HF Hb); [| exact Hbad].
    rewrite Hl. apply elem_of_app. right. apply list_elem_of_here.
Qed.

(** The same for the remote upstreams, once every local one is good. *)
Theorem remote_upstream_failure_reported (Opts : Options)
    (good rest : list string) (s : string) :
  (forall g, g ∈ LocalUpstream Opts -> ~ upstream_entry_fails g) ->
  RemoteUpstream Opts = good ++ s :: rest ->
  Forall (fun g => ~ upstream_entry_fails g) good ->
  upstream_entry_fails s ->
  exists fmt err,
    run Opts init_world =
      Exited 1 (Some (mkLogLine fmt [AInt (Z.of_nat (length good)); AErr err])) /\
    ((splitArgs s = inl err /\ fmt = "Failed to parse remote upstream #%d: %v") \/
     (exists addr socks5 netAddr,
        splitArgs s = inr (addr, socks5, netAddr) /\
        NewFastUpstream addr socks5 netAddr = inl err /\
        fmt = "Failed to load remote upstream #%d: %v")).
Proof.
  intros Hlocal Hr Hgood Hbad.
  pose proof (run_walk Opts) as H. cbv zeta in H.
  destruct H as [[line [HL _]] | [lus [_ [[line [HR Hrun]] | [rus [[HF Hb] _]]]]]].
  - eapply upstream_loop_exit_cause in HL as [g [Hin Hg]]; [| reflexivity].
    exfalso. exact (Hlocal g Hin Hg).
  - rewrite Hr in HR.
    match type of HR with
    | forRange _ _ _ ?w0 = _ =>
        destruct (upstream_loop_first_failure 0%nat "remote" remoteUpstream set_remoteUpstream
                    good rest s Hgood 0%nat w0 _ eq_refl) as [Hparse Hload]
    end.
    destruct (fails_cases s Hbad) as [[err Hs] | (addr & socks5 & netAddr & err & Hs & Hn)].
    + rewrite (Hparse err Hs) in HR. injection HR as <-.
      eexists. exists err. split; [exact Hrun |]. left. split; [exact Hs | reflexivity].
    + rewrite (Hload addr socks5 netAddr err Hs Hn) in HR. injection HR as <-.
      eexists. exists err. split; [exact Hrun |]. right.
      exists addr, socks5, netAddr. split; [exact Hs |]. split; [exact Hn | reflexivity].
  - exfalso. apply (built_not_fails _ _ s HF Hb); [| exact Hbad].
    rewrite Hr. apply elem_of_app. right. apply list_elem_of_here.
Qed.

(** ** What a start-up that reaches the servers leaves behind *)

(** The log of a start-up that reaches the servers: one line for the
    local domain matcher and one for the remote one, each only when its
    list of files is not empty and each with the length of the matcher
    loaded from it, then the line with the length of the sorted address
    list; nothing else, and in this order.  The level is debug exactly
    when [Opts.Debug] is set. *)
Theorem startup_log (Opts : Options) (w : World) :
  run Opts init_world = Running tt w ->
  exists lm rm l,
    load_all domain_LoadFromFile NewMixMatcher (LocalDomain Opts) = inr lm /\
    load_all domain_LoadFromFile NewMixMatcher (RemoteDomain Opts) = inr rm /\
    load_all netlist_LoadFromFile netlist_NewList (LocalIP Opts) = inr l /\
    logged w = final_log Opts lm rm l /\
    (level w = DebugLevel <-> Debug Opts = true).
Proof.
  intros Hrun.
  pose proof (run_walk Opts) as H. cbv zeta in H.
  destruct H as [[line [_ H]] | [lus [_ [[line [_ H]] | [rus [_ H]]]]]];
    try congruence.
  destruct (load_all domain_LoadFromFile NewMixMatcher (LocalDomain Opts))
    as [e | lm]; [congruence |].
  destruct (load_all domain_LoadFromFile NewMixMatcher (RemoteDomain Opts))
    as [e | rm]; [congruence |].
  destruct (load_all netlist_LoadFromFile netlist_NewList (LocalIP Opts))
    as [e | l]; [congruence |].
  rewrite H in Hrun. injection Hrun as <-.
  exists lm, rm, l. repeat (split; [reflexivity |]). cbn [level].
  destruct (Debug Opts); split; congruence.
Qed.

(** The domain matchers of a start-up that reaches the servers: each one
    the handler has points to a mix matcher of its own, which holds the
    files of its own list, loaded in order into a new matcher; the local
    and the remote matcher never share an object, nor does either share
    one with the address matcher. *)
Theorem domain_matchers_separate (Opts : Options) (w : World) :
  run Opts init_world = Running tt w ->
  exists c, handler_of w = Some c /\
    (forall ql, localDomain c = Some ql ->
       exists lm,
         load_all domain_LoadFromFile NewMixMatcher (LocalDomain Opts) = inr lm /\
         heap w !! qname_domain ql = Some (ObjMixMatcher lm)) /\
    (forall qr, remoteDomain c = Some qr ->
       exists rm,
         load_all domain_LoadFromFile NewMixMatcher (RemoteDomain Opts) = inr rm /\
         heap w !! qname_domain qr = Some (ObjMixMatcher rm)) /\
    (forall ql qr, localDomain c = Some ql -> remoteDomain c = Some qr ->
       qname_domain ql <> qname_domain qr) /\
    (forall q m, (localDomain c = Some q \/ remoteDomain c = Some q) ->
       localIP c = Some m -> qname_domain q <> ip_list m).
Proof.
  intros Hrun.
  destruct (run_running _ _ Hrun)
    as (lus & rus & lm & rm & l & logs & -> & _ & _ & Hlm & Hrm & _).
  eexists. split; [reflexivity |].
  cbn [localDomain remoteDomain localIP final_handler heap]. unfold final_matchers.
  destruct (LocalDomain Opts) as [| fl fls], (RemoteDomain Opts) as [| fr frs];
    cbn [length Nat.ltb Nat.leb app].
  - repeat split; intros; try discriminate. destruct H; discriminate.
  - split; [intros; discriminate |]. split.
    + intros qr H. injection H as <-. exists rm. split; [exact Hrm | reflexivity].
    + split; [intros; discriminate |].
      intros q m [H | H] Hm; [discriminate |].
      injection H as <-. injection Hm as <-. cbn. lia.
  - split.
    + intros ql H. injection H as <-. exists lm. split; [exact Hlm | reflexivity].
    + split; [intros; discriminate |]. split; [intros; discriminate |].
      intros q m [H | H] Hm; [| discriminate].
      injection H as <-. injection Hm as <-. cbn. lia.
  - split.
    + intros ql H. injection H as <-. exists lm. split; [exact Hlm | reflexivity].
    + split.
      * intros qr H. injection H as <-. exists rm. split; [exact Hrm | reflexivity].
      * split.
        -- intros ql qr Hl Hr. injection Hl as <-. injection Hr as <-. cbn. lia.
        -- intros q m [H | H] Hm; injection H as <-; injection Hm as <-; cbn; lia.
Qed.

(** A cache that is built has room: every shard holds at least one entry,
    the shards together hold at most the configured size and miss it by
    at most 7, and the cleaner runs every minute. *)
Theorem cache_shard_bounds (Opts : Options) (w : World) :
  run Opts init_world = Running tt w ->
  exists c, handler_of w = Some c /\
    forall mc, cache c = Some mc ->
      1 <= maxSizePerShard mc /\
      CacheSize Opts - 7 <= shardNum mc * maxSizePerShard mc <= CacheSize Opts /\
      cleanerInterval mc = 60 * 1000 * 1000 * 1000.
Proof.
  intros Hrun.
  destruct (run_running _ _ Hrun) as (lus & rus & lm & rm & l & logs & -> & _).
  eexists. split; [reflexivity |]. cbn [cache final_handler].
  destruct (Z.ltb_spec 8 (CacheSize Opts)) as [Hlt | Hge]; [| discriminate].
  intros mc H. injection H as <-. cbn [shardNum maxSizePerShard cleanerInterval].
  unfold int_div. rewrite Z.quot_div_nonneg by lia.
  pose proof (Z.div_mod (CacheSize Opts) 8 ltac:(lia)) as Hdm.
  pose proof (Z.mod_pos_bound (CacheSize Opts) 8 ltac:(lia)) as Hm.
  repeat split; first [lia | reflexivity].
Qed.

(** ** The command line *)

Lemma set_flags_lists (cmdline : list Flag) :
  forall o o' : Options,
    set_flags o cmdline = inr o' ->
    LocalUpstream o' = LocalUpstream o ++ local_upstream_values cmdline /\
    RemoteUpstream o' = RemoteUpstream o ++ remote_upstream_values cmdline /\
    Debug o' = Debug o || isSet opt_debug cmdline.
Proof.
  induction cmdline as [| f cmdline IH]; intros o o' H.
  - injection H as <-. cbn. rewrite !app_nil_r, orb_false_r. auto.
  - cbn [set_flags] in H.
    destruct (set_flag o f) as [err | o1] eqn:Hf; [discriminate |].
    destruct (IH _ _ H) as (HL & HR & HD). rewrite HL, HR, HD. clear IH H HL HR HD.
    destruct f; cbn in Hf;
      try (destruct (is_int v); [| discriminate Hf]);
      injection Hf as <-; cbn;
      rewrite <- ?app_assoc, ?orb_true_r, ?orb_false_r; auto.
Qed.

Lemma flags_Parse_lists (cmdline : list Flag) (Opts : Options) :
  flags_Parse cmdline = inr Opts ->
  LocalUpstream Opts = local_upstream_values cmdline /\
  RemoteUpstream Opts = remote_upstream_values cmdline /\
  Debug Opts = isSet opt_debug cmdline /\
  required_set cmdline = true.
Proof.
  unfold flags_Parse. intros H.
  destruct (set_flags zero_Options cmdline) as [err | o] eqn:Hs; [discriminate |].
  destruct (required_set cmdline); [| discriminate].
  injection H as <-.
  destruct (set_flags_lists _ _ _ Hs) as (HL & HR & HD).
  unfold apply_defaults.
  destruct (isSet opt_local_latency cmdline); cbn; rewrite ?HL, ?HR, ?HD; auto.
Qed.

Lemma isSet_elem (n : OptName) (cmdline : list Flag) :
  isSet n cmdline = true <-> exists f, f ∈ cmdline /\ flag_name f = n.
Proof.
  unfold isSet. rewrite existsb_exists. split.
  - intros [f [Hin Hf]]. exists f. split; [apply list_elem_of_In, Hin |].
    destruct (flag_name f), n; first [reflexivity | discriminate Hf].
  - intros [f [Hin <-]]. exists f. split; [apply list_elem_of_In, Hin |].
    destruct (flag_name f); reflexivity.
Qed.

(** Without one of the four required options ([server], [local-upstream],
    [local-ip], [remote-upstream]) on the command line, [main] exits with
    status 1 at once: [run] is not started and nothing is logged. *)
Theorem required_option_missing (cmdline : list Flag) :
  (forall v, flag_server v ∉ cmdline) \/
  (forall v, flag_local_upstream v ∉ cmdline) \/
  (forall v, flag_local_ip v ∉ cmdline) \/
  (forall v, flag_remote_upstream v ∉ cmdline) ->
  main cmdline = Exited 1 None.
Proof.
  intros Hmiss. unfold main.
  destruct (flags_Parse cmdline) as [err | Opts] eqn:Hp; [reflexivity | exfalso].
  destruct (flags_Parse_lists _ _ Hp) as (_ & _ & _ & Hreq).
  unfold required_set in Hreq.
  apply andb_true_iff in Hreq as [Hreq H4].
  apply andb_true_iff in Hreq as [Hreq H3].
  apply andb_true_iff in Hreq as [H1 H2].
  apply isSet_elem in H1 as [f1 [Hin1 Hn1]].
  apply isSet_elem in H2 as [f2 [Hin2 Hn2]].
  apply isSet_elem in H3 as [f3 [Hin3 Hn3]].
  apply isSet_elem in H4 as [f4 [Hin4 Hn4]].
  destruct Hmiss as [H | [H | [H | H]]].
  - destruct f1; try discriminate Hn1. exact (H _ Hin1).
  - destruct f2; try discriminate Hn2. exact (H _ Hin2).
  - destruct f3; try discriminate Hn3. exact (H _ Hin3).
  - destruct f4; try discriminate Hn4. exact (H _ Hin4).
Qed.

(** From the command line to the handler: when [main] reaches the servers,
    each upstream group has as many handles as its option occurs on the
    command line, in that order, and the one handle that is trusted is the
    one built from the first occurrence, which exists. *)
Theorem first_on_command_line_trusted (cmdline : list Flag) (w : World) :
  main cmdline = Running tt w ->
  exists c, handler_of w = Some c /\
    (length (localUpstream c) = length (local_upstream_values cmdline) /\
     exists s u addr socks5 netAddr,
       local_upstream_values cmdline !! 0%nat = Some s /\
       localUpstream c !! 0%nat = Some u /\ trusted u = true /\
       splitArgs s = inr (addr, socks5, netAddr) /\
       NewFastUpstream addr socks5 netAddr = inr (wrapped u)) /\
    (length (remoteUpstream c) = length (remote_upstream_values cmdline) /\
     exists s u addr socks5 netAddr,
       remote_upstream_values cmdline !! 0%nat = Some s /\
       remoteUpstream c !! 0%nat = Some u /\ trusted u = true /\
       splitArgs s = inr (addr, socks5, netAddr) /\
       NewFastUpstream addr socks5 netAddr = inr (wrapped u)).
Proof.
  intros Hmain. unfold main in Hmain.
  destruct (flags_Parse cmdline) as [err | Opts] eqn:Hp; [discriminate |].
  destruct (flags_Parse_lists _ _ Hp) as (HL & HR & _ & Hreq).
  destruct (run_running _ _ Hmain)
    as (lus & rus & lm & rm & l & logs & -> & [HL1 HL2] & [HR1 HR2] & _).
  rewrite HL in HL1, HL2. rewrite HR in HR1, HR2.
  unfold required_set in Hreq.
  apply andb_true_iff in Hreq as [Hreq H4].
  apply andb_true_iff in Hreq as [Hreq _].
  apply andb_true_iff in Hreq as [_ H2].
  assert (Hne : forall n vals (us : list (@upstreamWrapper FastUpstream)),
             (forall f, f ∈ cmdline -> flag_name f = n -> exists v, v ∈ vals) ->
             isSet n cmdline = true ->
             Forall2 (fun _ _ => True) vals us ->
             (forall k s u, vals !! k = Some s -> us !! k = Some u -> built k s u) ->
             length us = length vals /\
             exists s u addr socks5 netAddr,
               vals !! 0%nat = Some s /\ us !! 0%nat = Some u /\ trusted u = true /\
               splitArgs s = inr (addr, socks5, netAddr) /\
               NewFastUpstream addr socks5 netAddr = inr (wrapped u)).
  { intros n vals us Hvals Hset H1 Hb.
    split; [symmetry; eapply Forall2_length, H1 |].
    apply isSet_elem in Hset as [f [Hin Hn]].
    destruct (Hvals f Hin Hn) as [v Hv].
    destruct vals as [| s vals]; [inversion Hv |].
    inversion H1 as [| ? u ? us' _ _]; subst.
    destruct (Hb 0%nat s u eq_refl eq_refl) as [Ht (addr & socks5 & netAddr & Hs & Hnew)].
    exists s, u, addr, socks5, netAddr. auto. }
  eexists. split; [reflexivity |]. cbn [localUpstream remoteUpstream final_handler].
  split.
  - apply (Hne opt_local_upstream); try assumption.
    intros f Hin Hn. destruct f; try discriminate Hn. exists v.
    unfold local_upstream_values. apply list_elem_of_In, in_flat_map.
    exists (flag_local_upstream v). split; [apply list_elem_of_In, Hin | cbn; auto].
  - apply (Hne opt_remote_upstream); try assumption.
    intros f Hin Hn. destruct f; try discriminate Hn. exists v.
    unfold remote_upstream_values. apply list_elem_of_In, in_flat_map.
    exists (flag_remote_upstream v). split; [apply list_elem_of_In, Hin | cbn; auto].
Qed.

(** The verbose switch and nothing else decides the log level: a [main]
    that reaches the servers logs at debug level exactly when the switch
    is on the command line. *)
Theorem debug_switch_sets_level (cmdline : list Flag) (w : World) :
  main cmdline = Running tt w ->
  (level w = DebugLevel <-> flag_debug ∈ cmdline) /\
  (level w = InfoLevel <-> flag_debug ∉ cmdline).
Proof.
  intros Hmain. unfold main in Hmain.
  destruct (flags_Parse cmdline) as [err | Opts] eqn:Hp; [discriminate |].
  destruct (flags_Parse_lists _ _ Hp) as (_ & _ & HD & _).
  destruct (run_running _ _ Hmain) as (lus & rus & lm & rm & l & logs & -> & _).
  cbn [level]. rewrite HD.
  assert (Hiff : isSet opt_debug cmdline = true <-> flag_debug ∈ cmdline).
  { rewrite isSet_elem. split.
    - intros [f [Hin Hn]]. destruct f; try discriminate Hn. exact Hin.
    - intros Hin. exists flag_debug. auto. }
  destruct (isSet opt_debug cmdline).
  - assert (flag_debug ∈ cmdline) by (apply Hiff; reflexivity).
    split; split; intros; try reflexivity; try assumption; try discriminate.
    contradiction.
  - assert (flag_debug ∉ cmdline) by (intros Hin; apply Hiff in Hin; discriminate).
    split; split; intros; try reflexivity; try assumption; try discriminate.
    contradiction.
Qed.

End MoreFacts.

(** * More of [main.go] on the test double *)

Lemma splitArgs_keeps_scheme_witness :
  url_Parse ("tls" +:+ "://" +:+ "8.8.8.8:853?netaddr=10.0.0.2:0&socks5=127.0.0.1:1080")
    = inr (url.mkURL "tls" "" "" "8.8.8.8:853" "" false
             "netaddr=10.0.0.2:0&socks5=127.0.0.1:1080" "") /\
  splitArgs ("tls" +:+ "://" +:+ "8.8.8.8:853?netaddr=10.0.0.2:0&socks5=127.0.0.1:1080") =
    inr ("tls://8.8.8.8:853", "127.0.0.1:1080", "10.0.0.2:0").
Proof.
  assert (Hu : url_Parse ("tls" +:+ "://" +:+
                          "8.8.8.8:853?netaddr=10.0.0.2:0&socks5=127.0.0.1:1080")
               = inr (url.mkURL "tls" "" "" "8.8.8.8:853" "" false
                        "netaddr=10.0.0.2:0&socks5=127.0.0.1:1080" ""))
    by (vm_compute; reflexivity).
  split; [exact Hu |].
  rewrite (splitArgs_keeps_scheme "tls"
             "8.8.8.8:853?netaddr=10.0.0.2:0&socks5=127.0.0.1:1080" _ Hu).
  vm_compute. reflexivity.
Defined.

Lemma batchLoadIPFile_effect_witness :
  heap Cases.w_objects !! 0%nat = Some (ObjNetList [5]) /\
  exists w',
    batchLoadIPFile 0%nat ["cn-ip.txt"; "lan-ip.txt"] Cases.w_objects =
      Running (match load_all netlist_LoadFromFile [5] ["cn-ip.txt"; "lan-ip.txt"] with
               | inl e => Some e
               | inr _ => None
               end) w' /\
    level w' = level Cases.w_objects /\ logged w' = logged Cases.w_objects /\
    serving w' = serving Cases.w_objects /\
    length (heap w') = length (heap Cases.w_objects) /\
    (forall q, q <> 0%nat -> heap w' !! q = heap Cases.w_objects !! q) /\
    (forall nl', load_all netlist_LoadFromFile [5] ["cn-ip.txt"; "lan-ip.txt"] = inr nl' ->
                 heap w' !! 0%nat = Some (ObjNetList nl')).
Proof.
  split; [reflexivity |].
  apply (batchLoadIPFile_effect ["cn-ip.txt"; "lan-ip.txt"] Cases.w_objects 0%nat [5]).
  reflexivity.
Defined.

Lemma batchLoadDomainFile_effect_witness :
  heap Cases.w_objects !! 1%nat = Some (ObjMixMatcher []) /\
  exists w',
    batchLoadDomainFile 1%nat ["cn.txt"; "none.txt"] Cases.w_objects =
      Running (match load_all domain_LoadFromFile [] ["cn.txt"; "none.txt"] with
               | inl e => Some e
               | inr _ => None
               end) w' /\
    level w' = level Cases.w_objects /\ logged w' = logged Cases.w_objects /\
    serving w' = serving Cases.w_objects /\
    length (heap w') = length (heap Cases.w_objects) /\
    (forall q, q <> 1%nat -> heap w' !! q = heap Cases.w_objects !! q) /\
    (forall mm', load_all domain_LoadFromFile [] ["cn.txt"; "none.txt"] = inr mm' ->
                 heap w' !! 1%nat = Some (ObjMixMatcher mm')).
Proof.
  split; [reflexivity |].
  apply (batchLoadDomainFile_effect ["cn.txt"; "none.txt"] Cases.w_objects 1%nat []).
  reflexivity.
Defined.


Lemma file_failure_reported_witness :
  (forall s, s ∈ LocalUpstream Cases.opts_missing_ip ++ RemoteUpstream Cases.opts_missing_ip ->
             ~ upstream_entry_fails s) /\
  run Cases.opts_missing_ip init_world =
    Exited 1 (Some (mkLogLine "Failed to load local ip: %v"
                      [AErr (errorString "no such file")])).
Proof.
  assert (H : forall s,
             s ∈ LocalUpstream Cases.opts_missing_ip ++ RemoteUpstream Cases.opts_missing_ip ->
             ~ upstream_entry_fails s).
  { intros s Hin. apply list_elem_of_In in Hin. cbn in Hin.
    destruct Hin as [<- | [<- | []]]; vm_compute; tauto. }
  split; [exact H | exact (file_failure_reported Cases.opts_missing_ip H)].
Defined.

Lemma local_upstream_failure_reported_witness :
  LocalUpstream Cases.opts_bad_local = ["223.5.5.5"] ++ "dns google" :: ["quic://9.9.9.9"] /\
  Forall (fun g => ~ upstream_entry_fails g) ["223.5.5.5"] /\
  upstream_entry_fails "dns google" /\
  exists fmt err,
    run Cases.opts_bad_local init_world =
      Exited 1 (Some (mkLogLine fmt [AInt (Z.of_nat (length ["223.5.5.5"])); AErr err])) /\
    ((splitArgs "dns google" = inl err /\ fmt = "Failed to parse local upstream #%d: %v") \/
     (exists addr socks5 netAddr,
        splitArgs "dns google" = inr (addr, socks5, netAddr) /\
        NewFastUpstream addr socks5 netAddr = inl err /\
        fmt = "Failed to load local upstream #%d: %v")).
Proof.
  assert (H1 : Forall (fun g => ~ upstream_entry_fails g) ["223.5.5.5"]).
  { constructor; [vm_compute; tauto | constructor]. }
  assert (H2 : upstream_entry_fails "dns google") by (vm_compute; exact I).
  split; [reflexivity |]. split; [exact H1 |]. split; [exact H2 |].
  apply (local_upstream_failure_reported Cases.opts_bad_local
           ["223.5.5.5"] ["quic://9.9.9.9"] "dns google" eq_refl H1 H2).
Defined.

Lemma remote_upstream_failure_reported_witness :
  (forall g, g ∈ LocalUpstream Fixture.opts_bad -> ~ upstream_entry_fails g) /\
  RemoteUpstream Fixture.opts_bad = ["8.8.8.8"] ++ "dns google" :: [] /\
  Forall (fun g => ~ upstream_entry_fails g) ["8.8.8.8"] /\
  upstream_entry_fails "dns google" /\
  exists fmt err,
    run Fixture.opts_bad init_world =
      Exited 1 (Some (mkLogLine fmt [AInt (Z.of_nat (length ["8.8.8.8"])); AErr err])) /\
    ((splitArgs "dns google" = inl err /\ fmt = "Failed to parse remote upstream #%d: %v") \/
     (exists addr socks5 netAddr,
        splitArgs "dns google" = inr (addr, socks5, netAddr) /\
        NewFastUpstream addr socks5 netAddr = inl err /\
        fmt = "Failed to load remote upstream #%d: %v")).
Proof.
  assert (H0 : forall g, g ∈ LocalUpstream Fixture.opts_bad -> ~ upstream_entry_fails g).
  { intros g Hin. apply list_elem_of_In in Hin. cbn in Hin.
    destruct Hin as [<- | []]; vm_compute; tauto. }
  assert (H1 : Forall (fun g => ~ upstream_entry_fails g) ["8.8.8.8"]).
  { constructor; [vm_compute; tauto | constructor]. }
  assert (H2 : upstream_entry_fails "dns google") by (vm_compute; exact I).
  split; [exact H0 |]. split; [reflexivity |]. split; [exact H1 |]. split; [exact H2 |].
  apply (remote_upstream_failure_reported Fixture.opts_bad
           ["8.8.8.8"] [] "dns google" H0 eq_refl H1 H2).
Defined.

Lemma startup_log_witness :
  run Fixture.opts_full init_world = Running tt Fixture.w_full /\
  exists lm rm l,
    load_all domain_LoadFromFile NewMixMatcher (LocalDomain Fixture.opts_full) = inr lm /\
    load_all domain_LoadFromFile NewMixMatcher (RemoteDomain Fixture.opts_full) = inr rm /\
    load_all netlist_LoadFromFile netlist_NewList (LocalIP Fixture.opts_full) = inr l /\
    logged Fixture.w_full = final_log Fixture.opts_full lm rm l /\
    (level Fixture.w_full = DebugLevel <-> Debug Fixture.opts_full = true).
Proof.
  split; [vm_compute; reflexivity |].
  apply (startup_log Fixture.opts_full Fixture.w_full).
  vm_compute; reflexivity.
Defined.

Lemma domain_matchers_separate_witness :
  run Fixture.opts_full init_world = Running tt Fixture.w_full /\
  exists c, handler_of Fixture.w_full = Some c /\
    (forall ql, localDomain c = Some ql ->
       exists lm,
         load_all domain_LoadFromFile NewMixMatcher (LocalDomain Fixture.opts_full) = inr lm /\
         heap Fixture.w_full !! qname_domain ql = Some (ObjMixMatcher lm)) /\
    (forall qr, remoteDomain c = Some qr ->
       exists rm,
         load_all domain_LoadFromFile NewMixMatcher (RemoteDomain Fixture.opts_full) = inr rm /\
         heap Fixture.w_full !! qname_domain qr = Some (ObjMixMatcher rm)) /\
    (forall ql qr, localDomain c = Some ql -> remoteDomain c = Some qr ->
       qname_domain ql <> qname_domain qr) /\
    (forall q m, (localDomain c = Some q \/ remoteDomain c = Some q) ->
       localIP c = Some m -> qname_domain q <> ip_list m).
Proof.
  split; [vm_compute; reflexivity |].
  apply (domain_matchers_separate Fixture.opts_full Fixture.w_full).
  vm_compute; reflexivity.
Defined.

Lemma cache_shard_bounds_witness :
  run Fixture.opts_full init_world = Running tt Fixture.w_full /\
  exists c, handler_of Fixture.w_full = Some c /\
    forall mc, cache c = Some mc ->
      1 <= maxSizePerShard mc /\
      CacheSize Fixture.opts_full - 7 <= shardNum mc * maxSizePerShard mc
        <= CacheSize Fixture.opts_full /\
      cleanerInterval mc = 60 * 1000 * 1000 * 1000.
Proof.
  split; [vm_compute; reflexivity |].
  apply (cache_shard_bounds Fixture.opts_full Fixture.w_full).
  vm_compute; reflexivity.
Defined.

Lemma required_option_missing_witness :
  ((forall v, flag_server v ∉ Cases.cmdline_no_server) \/
   (forall v, flag_local_upstream v ∉ Cases.cmdline_no_server) \/
   (forall v, flag_local_ip v ∉ Cases.cmdline_no_server) \/
   (forall v, flag_remote_upstream v ∉ Cases.cmdline_no_server)) /\
  main Cases.cmdline_no_server = Exited 1 None.
Proof.
  assert (H : (forall v, flag_server v ∉ Cases.cmdline_no_server) \/
              (forall v, flag_local_upstream v ∉ Cases.cmdline_no_server) \/
              (forall v, flag_local_ip v ∉ Cases.cmdline_no_server) \/
              (forall v, flag_remote_upstream v ∉ Cases.cmdline_no_server)).
  { left. intros v Hin. apply list_elem_of_In in Hin. cbn in Hin.
    intuition discriminate. }
  split; [exact H | exact (required_option_missing Cases.cmdline_no_server H)].
Defined.

Lemma first_on_command_line_trusted_witness :
  main Fixture.cmdline_full = Running tt Fixture.w_full /\
  exists c, handler_of Fixture.w_full = Some c /\
    (length (localUpstream c) = length (local_upstream_values Fixture.cmdline_full) /\
     exists s u addr socks5 netAddr,
       local_upstream_values Fixture.cmdline_full !! 0%nat = Some s /\
       localUpstream c !! 0%nat = Some u /\ trusted u = true /\
       splitArgs s = inr (addr, socks5, netAddr) /\
       NewFastUpstream addr socks5 netAddr = inr (wrapped u)) /\
    (length (remoteUpstream c) = length (remote_upstream_values Fixture.cmdline_full) /\
     exists s u addr socks5 netAddr,
       remote_upstream_values Fixture.cmdline_full !! 0%nat = Some s /\
       remoteUpstream c !! 0%nat = Some u /\ trusted u = true /\
       splitArgs s = inr (addr, socks5, netAddr) /\
       NewFastUpstream addr socks5 netAddr = inr (wrapped u)).
Proof.
  split; [vm_compute; reflexivity |].
  apply (first_on_command_line_trusted Fixture.cmdline_full Fixture.w_full).
  vm_compute; reflexivity.
Defined.

Lemma debug_switch_sets_level_witness :
  main Cases.cmdline_debug = Running tt Cases.w_debug /\
  (level Cases.w_debug = DebugLevel <-> flag_debug ∈ Cases.cmdline_debug) /\
  (level Cases.w_debug = InfoLevel <-> flag_debug ∉ Cases.cmdline_debug).
Proof.
  split; [vm_compute; reflexivity |].
  apply (debug_switch_sets_level Cases.cmdline_debug Cases.w_debug).
  vm_compute; reflexivity.
Defined.
